(** * AI Vision Assistant: the capture / analyse / speak pipeline

    A shallow embedding of [src/ai_vision_assistant.py] (class
    [VisionAssistant]) and of the Python builtins its setters rely on.

    - Python [int] is [Z]; Python [float] is the kernel's binary64
      ([PrimFloat]), so that [150 * new_speed] and [width * scale] round
      exactly as they do in CPython.
    - Python [str] is [string]; a character is read as the code point
      U+0000..U+00FF it denotes (Latin-1), which is enough for the digits,
      signs, white space and cased letters the program looks at.
    - The object's attributes are the fields of one record that every
      method takes and returns; what a method does to the outside world
      (message boxes, status bar, log pane, endpoint calls, threads,
      audio) is appended to an effect trace kept in that record.
    - What the outside world answers (the clock, the camera, the encoder,
      the recogniser, the speech services) is an explicit argument of the
      method that asks for it. *)

From Stdlib Require Import ZArith QArith List String Ascii Bool Lia Lqa.
From Stdlib Require Import Floats DecimalString.
Import ListNotations.

Local Open Scope Z_scope.

(* ================================================================== *)
(** * Python builtins *)
(* ================================================================== *)

Module Py.

(** ** Characters *)

Definition code (c : ascii) : Z := Z.of_N (N_of_ascii c).

Definition in_range (lo hi : Z) (c : ascii) : bool :=
  (lo <=? code c) && (code c <=? hi).

Definition is_digit (c : ascii) : bool := in_range 48 57 c.

Definition digit_val (c : ascii) : Z := code c - 48.

(** [Py_UNICODE_ISSPACE] below U+0100: TAB..CR, FS..US, SPACE, NEL, NBSP.
    This is what [str.strip] removes. *)
Definition is_space (c : ascii) : bool :=
  in_range 9 13 c || in_range 28 32 c
  || (code c =? 133) || (code c =? 160).

(** What [int] and [float] skip around a number: the ASCII blanks
    TAB..CR and SPACE, and the two blanks above U+007F, which the
    conversion first turns into spaces.  The ASCII separators FS..US
    stay as they are and make the conversion fail. *)
Definition is_blank (c : ascii) : bool :=
  in_range 9 13 c || (code c =? 32) || (code c =? 133) || (code c =? 160).

(** [str.isupper] on a single code point below U+0100: A..Z, and the
    Latin-1 capitals U+00C0..U+00DE without the multiplication sign. *)
Definition is_upper (c : ascii) : bool :=
  in_range 65 90 c || (in_range 192 222 c && negb (code c =? 215)).

(** [str.lower] on a single code point below U+0100. *)
Definition lower_char (c : ascii) : ascii :=
  if is_upper c then ascii_of_N (Z.to_N (code c + 32)) else c.

(** [str.lower]. *)
Fixpoint lower (s : string) : string :=
  match s with
  | EmptyString => EmptyString
  | String c r => String (lower_char c) (lower r)
  end.


(** ** Scanning numbers *)

Fixpoint lstrip (l : list ascii) : list ascii :=
  match l with
  | c :: r => if is_space c then lstrip r else l
  | [] => []
  end.

Definition strip (l : list ascii) : list ascii :=
  rev (lstrip (rev (lstrip l))).

Fixpoint skip_blanks (l : list ascii) : list ascii :=
  match l with
  | c :: r => if is_blank c then skip_blanks r else l
  | [] => []
  end.

(** The text of a number, without the blanks around it. *)
Definition trim (l : list ascii) : list ascii :=
  rev (skip_blanks (rev (skip_blanks l))).

(** Underscores in a numeric literal: each one must follow a digit and
    be followed by a digit; they are then dropped.  [prev_digit] and
    [prev_us] describe the character before [l]. *)
Fixpoint drop_underscores (prev_digit prev_us : bool) (l : list ascii)
  : option (list ascii) :=
  match l with
  | [] => if prev_us then None else Some []
  | c :: r =>
      if (code c =? 95) then
        if prev_digit then drop_underscores false true r else None
      else if prev_us && negb (is_digit c) then None
      else option_map (cons c) (drop_underscores (is_digit c) false r)
  end.

(** The longest prefix of digits, as (value, number of digits, rest). *)
Fixpoint take_digits (acc : Z) (n : Z) (l : list ascii)
  : Z * Z * list ascii :=
  match l with
  | c :: r => if is_digit c then take_digits (10 * acc + digit_val c) (n + 1) r
              else (acc, n, l)
  | [] => (acc, n, [])
  end.

(** An optional sign: [true] for minus. *)
Definition take_sign (l : list ascii) : bool * list ascii :=
  match l with
  | c :: r => if code c =? 45 then (true, r)
              else if code c =? 43 then (false, r)
              else (false, l)
  | [] => (false, [])
  end.

(** CPython's default limit on the digits of a converted integer
    ([sys.int_info.default_max_str_digits], since 3.11). *)
Definition max_str_digits : Z := 4300.

(** ** [int(s)] for a string [s]: [None] is [ValueError]. *)
Definition int_of_str (s : string) : option Z :=
  let '(neg, body) := take_sign (trim (list_ascii_of_string s)) in
  match drop_underscores false false body with
  | None => None
  | Some ds =>
      match take_digits 0 0 ds with
      | (v, n, []) =>
          if (0 <? n) && (n <=? max_str_digits)
          then Some (if neg then - v else v) else None
      | _ => None
      end
  end.

(** ** [str(n)] for an integer [n]. *)
Definition str_of_int (n : Z) : string := NilZero.string_of_int (Z.to_int n).

(** ** [float(s)] for a string [s]: [None] is [ValueError]. *)

(** The binary64 nearest to [(-1)^neg * n / d] (ties to even). *)
Definition float_of_ratio (neg : bool) (n d : Z) : float :=
  match n, d with
  | Zpos pn, Zpos pd =>
      SF2Prim (SFdiv prec emax (S754_finite neg pn 0) (S754_finite false pd 0))
  | _, _ => if neg then (-0)%float else 0%float
  end.

(** [(-1)^neg * m * 10^e]. *)
Definition float_of_decimal (neg : bool) (m e : Z) : float :=
  if 0 <=? e then float_of_ratio neg (m * 10 ^ e) 1
  else float_of_ratio neg m (10 ^ (- e)).

Definition lower_codes (l : list ascii) : list Z :=
  map (fun c => code (lower_char c)) l.

(** "inf", "infinity" and "nan", in any case. *)
Definition special_float (neg : bool) (l : list ascii) : option float :=
  let w := lower_codes l in
  if list_eq_dec Z.eq_dec w [105; 110; 102] then
    Some (if neg then neg_infinity else infinity)
  else if list_eq_dec Z.eq_dec w [105; 110; 102; 105; 110; 105; 116; 121] then
    Some (if neg then neg_infinity else infinity)
  else if list_eq_dec Z.eq_dec w [110; 97; 110] then Some nan
  else None.

(** The exponent part: empty, or [e|E] [sign] digits+ up to the end. *)
Definition take_exponent (l : list ascii) : option Z :=
  match l with
  | [] => Some 0
  | c :: r =>
      if (code c =? 101) || (code c =? 69) then
        let '(eneg, r') := take_sign r in
        match take_digits 0 0 r' with
        | (v, n, []) => if 0 <? n then Some (if eneg then - v else v) else None
        | _ => None
        end
      else None
  end.

Definition float_of_str (s : string) : option float :=
  match drop_underscores false false (trim (list_ascii_of_string s)) with
  | None => None
  | Some l =>
      let '(neg, body) := take_sign l in
      match special_float neg body with
      | Some f => Some f
      | None =>
          let '(ip, ni, r1) := take_digits 0 0 body in
          let '(m, nf, r2) :=
            match r1 with
            | c :: r => if code c =? 46 then take_digits ip 0 r else (ip, 0, r1)
            | [] => (ip, 0, [])
            end in
          if 0 <? ni + nf then
            match take_exponent r2 with
            | Some e => Some (float_of_decimal neg m (e - nf))
            | None => None
            end
          else None
      end
  end.

(** ** [int(x)] for a finite float [x]: truncation towards zero.
    (On [nan] and the infinities Python raises; the program never gets
    there, and the model answers 0.) *)
Definition int_of_float (x : float) : Z :=
  match Prim2SF x with
  | S754_finite s m e =>
      let mag := match e with
                 | Z0 => Zpos m
                 | Zpos p => Z.shiftl (Zpos m) (Zpos p)
                 | Zneg p => Z.shiftr (Zpos m) (Zpos p)
                 end in
      if s then - mag else mag
  | _ => 0
  end.

(** ** [round(x)] for a finite float [x]: nearest integer, ties to even. *)
Definition round_float (x : float) : Z :=
  match Prim2SF x with
  | S754_finite s m e =>
      let mag := match e with
                 | Z0 => Zpos m
                 | Zpos p => Z.shiftl (Zpos m) (Zpos p)
                 | Zneg p =>
                     let q := Z.shiftr (Zpos m) (Zpos p) in
                     let r2 := 2 * (Zpos m - Z.shiftl q (Zpos p)) in
                     let h := Z.shiftl 1 (Zpos p) in
                     if (h <? r2) || ((h =? r2) && Z.odd q) then q + 1 else q
                 end in
      if s then - mag else mag
  | _ => 0
  end.

(** ** [float(n)] for an integer [n] whose magnitude is below 2^63
    (exact below 2^53, nearest-even above). *)
Definition float_of_int (n : Z) : float :=
  if 0 <=? n then of_uint63 (Uint63.of_Z n)
  else PrimFloat.opp (of_uint63 (Uint63.of_Z (- n))).

End Py.

(* ================================================================== *)
(** * [queue.Queue]: the bounded FIFO between capture and analysis *)
(* ================================================================== *)

Module Queue.

Section Bounded.
Context {A : Type}.

Record t := Make { maxsize : Z; items : list A }.

Definition create (n : Z) : t := Make n [].

Definition qsize (q : t) : Z := Z.of_nat (List.length (items q)).

(** [Queue.full]: [0 < maxsize <= qsize]. *)
Definition full (q : t) : bool := (0 <? maxsize q) && (maxsize q <=? qsize q).

(** [Queue.empty]. *)
Definition empty (q : t) : bool := qsize q =? 0.

(** [Queue.put(item)] with its default [block=True]: on a full queue
    the caller waits for a free slot, which is [None] here. *)
Definition put (x : A) (q : t) : option t :=
  if full q then None else Some (Make (maxsize q) (items q ++ [x])).

(** [Queue.get()] with its default [block=True]: on an empty queue the
    caller waits for an item, which is [None] here. *)
Definition get (q : t) : option (A * t) :=
  match items q with
  | [] => None
  | x :: r => Some (x, Make (maxsize q) r)
  end.
End Bounded.

Arguments t : clear implicits.

End Queue.

(* ================================================================== *)
(** * The assistant's state *)
(* ================================================================== *)

(** A captured frame: [frame.shape[:2]] and a name for its pixels. *)
Record frame := Frame { f_height : Z; f_width : Z; f_pixels : N }.

(** What [prepare_image_for_ai] hands to the model: the JPEG of a frame,
    known by the size it was encoded at and the pixels it came from. *)
Record image := Image { i_height : Z; i_width : Z; i_pixels : N }.

Inductive tier := CloudTTS | GTTS | Pyttsx3.

Inductive loop_name := CameraLoop | AiLoop | VoiceLoop.

(** The text of a status-bar message (after its wall-clock prefix,
    which the model leaves out). *)
Inductive status_msg :=
| Msg (s : string)
| SpeedSet (x : float).          (* f"Speaking speed set to {x}x" *)

Coercion Msg : string >-> status_msg.

(** What a method does to the outside world. *)
Inductive effect :=
| ShowError (title msg : string)              (* messagebox.showerror *)
| ShowWarning (title msg : string)            (* messagebox.showwarning *)
| Status (msg : status_msg)                   (* update_status *)
| LogText (prefix text : string)              (* log_text *)
| LogError (msg : string)                     (* logger.error *)
| Display (f : frame)                         (* update_video_display *)
| Analyze (img : image) (q : option string)   (* analyze_image_with_ai *)
| SpeakThread (text : string)                 (* Thread(target=speak_text) *)
| StartThread (l : loop_name)                 (* Thread(target=<loop>) *)
| StartButton (text : string)                 (* start_button.config(text=) *)
| VoiceButton (listening : bool)              (* update_voice_button *)
| AudioOut (t : tier) (text : string)         (* sound leaves the speakers *)
| MixerStop.                                  (* pygame.mixer.music.stop *)

(** The text of a Tk [StringVar]: what the user typed, or [str(x)] of a
    float the program put there. *)
Inductive tk_text :=
| Typed (s : string)
| StrOfFloat (x : float).

(** [float(var.get())]; [float(str(x))] is [x]. *)
Definition float_of_var (v : tk_text) : option float :=
  match v with
  | Typed s => Py.float_of_str s
  | StrOfFloat x => Some x
  end.

Record assistant := Assistant {
  is_running : bool;
  is_listening : bool;
  auto_describe : bool;
  last_description_time : Q;
  description_interval : Z;
  speaking_speed : float;
  use_google_tts_api : bool;
  google_tts_api_key : option string;  (* [None]: setup_audio failed before setting it *)
  ai_model : bool;                     (* [false]: setup_ai left [None] *)
  camera : bool;                       (* [false]: setup_camera left [None] *)
  tts_engine : option Z;               (* the engine's rate; [None]: never created *)
  image_queue : Queue.t frame;
  current_frame : option frame;
  interval_var : string;
  speed_var : tk_text;
  api_call_count : Z;
  trace : list effect                  (* newest first *)
}.

Definition set_is_running (v : bool) (a : assistant) : assistant :=
  Assistant v (is_listening a) (auto_describe a) (last_description_time a)
    (description_interval a) (speaking_speed a) (use_google_tts_api a)
    (google_tts_api_key a) (ai_model a) (camera a) (tts_engine a)
    (image_queue a) (current_frame a) (interval_var a) (speed_var a)
    (api_call_count a) (trace a).

Definition set_is_listening (v : bool) (a : assistant) : assistant :=
  Assistant (is_running a) v (auto_describe a) (last_description_time a)
    (description_interval a) (speaking_speed a) (use_google_tts_api a)
    (google_tts_api_key a) (ai_model a) (camera a) (tts_engine a)
    (image_queue a) (current_frame a) (interval_var a) (speed_var a)
    (api_call_count a) (trace a).

Definition set_auto_describe (v : bool) (a : assistant) : assistant :=
  Assistant (is_running a) (is_listening a) v (last_description_time a)
    (description_interval a) (speaking_speed a) (use_google_tts_api a)
    (google_tts_api_key a) (ai_model a) (camera a) (tts_engine a)
    (image_queue a) (current_frame a) (interval_var a) (speed_var a)
    (api_call_count a) (trace a).

Definition set_last_description_time (v : Q) (a : assistant) : assistant :=
  Assistant (is_running a) (is_listening a) (auto_describe a) v
    (description_interval a) (speaking_speed a) (use_google_tts_api a)
    (google_tts_api_key a) (ai_model a) (camera a) (tts_engine a)
    (image_queue a) (current_frame a) (interval_var a) (speed_var a)
    (api_call_count a) (trace a).

Definition set_description_interval (v : Z) (a : assistant) : assistant :=
  Assistant (is_running a) (is_listening a) (auto_describe a)
    (last_description_time a) v (speaking_speed a) (use_google_tts_api a)
    (google_tts_api_key a) (ai_model a) (camera a) (tts_engine a)
    (image_queue a) (current_frame a) (interval_var a) (speed_var a)
    (api_call_count a) (trace a).

Definition set_speaking_speed (v : float) (a : assistant) : assistant :=
  Assistant (is_running a) (is_listening a) (auto_describe a)
    (last_description_time a) (description_interval a) v
    (use_google_tts_api a) (google_tts_api_key a) (ai_model a) (camera a)
    (tts_engine a) (image_queue a) (current_frame a) (interval_var a)
    (speed_var a) (api_call_count a) (trace a).

Definition set_tts_engine (v : option Z) (a : assistant) : assistant :=
  Assistant (is_running a) (is_listening a) (auto_describe a)
    (last_description_time a) (description_interval a) (speaking_speed a)
    (use_google_tts_api a) (google_tts_api_key a) (ai_model a) (camera a)
    v (image_queue a) (current_frame a) (interval_var a) (speed_var a)
    (api_call_count a) (trace a).

Definition set_image_queue (v : Queue.t frame) (a : assistant) : assistant :=
  Assistant (is_running a) (is_listening a) (auto_describe a)
    (last_description_time a) (description_interval a) (speaking_speed a)
    (use_google_tts_api a) (google_tts_api_key a) (ai_model a) (camera a)
    (tts_engine a) v (current_frame a) (interval_var a) (speed_var a)
    (api_call_count a) (trace a).

Definition set_current_frame (v : option frame) (a : assistant) : assistant :=
  Assistant (is_running a) (is_listening a) (auto_describe a)
    (last_description_time a) (description_interval a) (speaking_speed a)
    (use_google_tts_api a) (google_tts_api_key a) (ai_model a) (camera a)
    (tts_engine a) (image_queue a) v (interval_var a) (speed_var a)
    (api_call_count a) (trace a).

Definition set_interval_var (v : string) (a : assistant) : assistant :=
  Assistant (is_running a) (is_listening a) (auto_describe a)
    (last_description_time a) (description_interval a) (speaking_speed a)
    (use_google_tts_api a) (google_tts_api_key a) (ai_model a) (camera a)
    (tts_engine a) (image_queue a) (current_frame a) v (speed_var a)
    (api_call_count a) (trace a).

Definition set_speed_var (v : tk_text) (a : assistant) : assistant :=
  Assistant (is_running a) (is_listening a) (auto_describe a)
    (last_description_time a) (description_interval a) (speaking_speed a)
    (use_google_tts_api a) (google_tts_api_key a) (ai_model a) (camera a)
    (tts_engine a) (image_queue a) (current_frame a) (interval_var a) v
    (api_call_count a) (trace a).

Definition set_api_call_count (v : Z) (a : assistant) : assistant :=
  Assistant (is_running a) (is_listening a) (auto_describe a)
    (last_description_time a) (description_interval a) (speaking_speed a)
    (use_google_tts_api a) (google_tts_api_key a) (ai_model a) (camera a)
    (tts_engine a) (image_queue a) (current_frame a) (interval_var a)
    (speed_var a) v (trace a).

Definition set_trace (v : list effect) (a : assistant) : assistant :=
  Assistant (is_running a) (is_listening a) (auto_describe a)
    (last_description_time a) (description_interval a) (speaking_speed a)
    (use_google_tts_api a) (google_tts_api_key a) (ai_model a) (camera a)
    (tts_engine a) (image_queue a) (current_frame a) (interval_var a)
    (speed_var a) (api_call_count a) v.

Definition emit (e : effect) (a : assistant) : assistant :=
  set_trace (e :: trace a) a.

(** [update_status(message)]. *)
Definition update_status (msg : status_msg) (a : assistant) : assistant :=
  emit (Status msg) a.

(** What the status bar shows. *)
Fixpoint last_status (tr : list effect) : option status_msg :=
  match tr with
  | [] => None
  | Status m :: _ => Some m
  | _ :: r => last_status r
  end.

Definition status_var (a : assistant) : option status_msg :=
  last_status (trace a).

(** [1.2], the default speaking speed, as the binary64 Python reads. *)
Definition default_speed : float := 0x1.3333333333333p+0%float.

(** How far [setup_audio] got before its handler took over: it creates
    the mixer and the local engine, then the recogniser and the
    microphone, and assigns the cloud key last. *)
Inductive audio_setup :=
| NoEngine          (* the mixer or [pyttsx3.init()] raised *)
| NoMicrophone      (* the engine exists; the microphone raised *)
| AudioReady.

(** [__init__]: the flags and settings it assigns, with what the three
    [setup_*] calls managed to create.  Of the cloud key only the truth
    value is ever read, so a stand-in text takes its place. *)
Definition init (ai_ok : bool) (audio : audio_setup) (camera_ok : bool)
  : assistant :=
  {| is_running := false;
     is_listening := false;
     auto_describe := true;
     last_description_time := 0%Q;
     description_interval := 10;
     speaking_speed := default_speed;
     use_google_tts_api := true;
     google_tts_api_key :=
       match audio with AudioReady => Some "key"%string | _ => None end;
     ai_model := ai_ok;
     camera := camera_ok;
     tts_engine := match audio with NoEngine => None | _ => Some 200 end;
     image_queue := Queue.create 2;
     current_frame := None;
     interval_var := Py.str_of_int 10;
     speed_var := StrOfFloat default_speed;
     api_call_count := 0;
     trace := [] |}.

Local Open Scope string_scope.
Local Open Scope Z_scope.

(* ================================================================== *)
(** * Image preparation and analysis *)
(* ================================================================== *)

(** The size [prepare_image_for_ai] encodes a frame at:
    [[
      height, width = frame.shape[:2]
      if width > 800:
          scale = 800 / width
          new_width = int(width * scale)
          new_height = int(height * scale)
    ]]
    [800 / width] is Python's true division of two integers and the two
    products are float products; for sizes below 2^53 these are the
    binary64 operations on the exact conversions. *)
Definition resized_shape (height width : Z) : Z * Z :=
  if 800 <? width then
    let scale := PrimFloat.div (Py.float_of_int 800) (Py.float_of_int width) in
    let new_width := Py.int_of_float (PrimFloat.mul (Py.float_of_int width) scale) in
    let new_height := Py.int_of_float (PrimFloat.mul (Py.float_of_int height) scale) in
    (new_height, new_width)
  else (height, width).

(** [prepare_image_for_ai(frame)].  [encodes] tells whether OpenCV and
    PIL got through the resize, the colour conversion and the JPEG
    encoding; when they raise, the method logs and returns [None]. *)
Definition prepare_image_for_ai (encodes : bool) (f : frame) (a : assistant)
  : option image * assistant :=
  if encodes then
    let '(h, w) := resized_shape (f_height f) (f_width f) in
    (Some (Image h w (f_pixels f)), a)
  else (None, emit (LogError "Error preparing image for AI") a).

(** What the vision endpoint answers to [generate_content]: a response
    with a text; a response whose [.text] raises (nothing usable in
    it); or no response, the call itself raising. *)
Inductive ai_reply :=
| Generated (text : string)
| Blocked (msg : string)
| EndpointError (msg : string).

(** [analyze_image_with_ai(image_data, question)], with the English
    messages ([response_language == 'en']). *)
Definition analyze_image_with_ai (reply : ai_reply) (img : image)
    (question : option string) (a : assistant) : string * assistant :=
  let a := emit (Analyze img question) a in
  if negb (ai_model a) then ("AI model not available", a)
  else
    match reply with
    | Generated text => (text, set_api_call_count (api_call_count a + 1) a)
    | Blocked msg =>
        (("Error analyzing image: " ++ msg)%string,
         emit (LogError "AI analysis error")
           (set_api_call_count (api_call_count a + 1) a))
    | EndpointError msg =>
        (("Error analyzing image: " ++ msg)%string, emit (LogError "AI analysis error") a)
    end.

(* ================================================================== *)
(** * Speech synthesis: the three tiers *)
(* ================================================================== *)

(** How playing a temporary MP3 goes:
    [[
      with tempfile.NamedTemporaryFile(delete=False, suffix='.mp3') as tmp_file:
          ...write or save...
          pygame.mixer.music.load(tmp_file.name)
          pygame.mixer.music.play()
          while pygame.mixer.music.get_busy():
              time.sleep(0.1)
          os.unlink(tmp_file.name)
    ]] *)
Inductive playback :=
| LoadRaises          (* an exception before [play()] has started the sound *)
| PlayThenRaises      (* the sound starts; [get_busy] or [os.unlink] raises *)
| PlayCompletes.

(** What the cloud endpoint does with the synthesis request. *)
Inductive cloud_answer :=
| PostRaises                                       (* transport error, timeout *)
| Responded (status_code : Z) (audio : bool) (pb : playback).

(** What gTTS does: [tts.save] fetches the audio. *)
Inductive gtts_answer :=
| SaveRaises
| Saved (pb : playback).

(** What the local engine does with [say] and [runAndWait]. *)
Inductive engine_answer :=
| SayRaises
| Said.

Record speech_env := SpeechEnv {
  cloud : cloud_answer;
  gtts : gtts_answer;
  engine : engine_answer
}.

(** The body of the [with] block above, from [load] on: [true] when it
    ran to its end, [false] when it raised. *)
Definition play (t : tier) (text : string) (pb : playback) (a : assistant)
  : bool * assistant :=
  match pb with
  | LoadRaises => (false, a)
  | PlayThenRaises => (false, emit (AudioOut t text) a)
  | PlayCompletes => (true, emit (AudioOut t text) a)
  end.

(** [speak_with_pyttsx3(text)]. *)
Definition speak_with_pyttsx3 (text : string) (ans : engine_answer)
    (a : assistant) : assistant :=
  match tts_engine a, ans with
  | Some _, Said => emit (AudioOut Pyttsx3 text) a
  | _, _ =>
      update_status "Speech synthesis failed"
        (emit (LogError "pyttsx3 TTS error") a)
  end.

(** [speak_with_google_cloud_tts(text)]. *)
Definition speak_with_google_cloud_tts (text : string) (ans : cloud_answer)
    (a : assistant) : bool * assistant :=
  match ans with
  | PostRaises => (false, emit (LogError "Google Cloud TTS error") a)
  | Responded status_code audio pb =>
      if (status_code =? 200) && audio then
        match play CloudTTS text pb a with
        | (true, a') => (true, a')
        | (false, a') => (false, emit (LogError "Google Cloud TTS error") a')
        end
      else (false, a)
  end.

(** [speak_with_gtts(text)]. *)
Definition speak_with_gtts (text : string) (env : speech_env) (a : assistant)
  : assistant :=
  match gtts env with
  | SaveRaises =>
      speak_with_pyttsx3 text (engine env) (emit (LogError "gTTS error") a)
  | Saved pb =>
      match play GTTS text pb a with
      | (true, a') => a'
      | (false, a') =>
          speak_with_pyttsx3 text (engine env) (emit (LogError "gTTS error") a')
      end
  end.

(** [speak_text(text)].  Reading [self.google_tts_api_key] when
    [setup_audio] never assigned it raises [AttributeError], which the
    method's own handler turns into the local tier. *)
Definition speak_text (text : string) (env : speech_env) (a : assistant)
  : assistant :=
  if use_google_tts_api a then
    match google_tts_api_key a with
    | None =>
        speak_with_pyttsx3 text (engine env) (emit (LogError "TTS error") a)
    | Some key =>
        if negb (String.eqb key "") then
          match speak_with_google_cloud_tts text (cloud env) a with
          | (true, a') => a'
          | (false, a') => speak_with_gtts text env a'
          end
        else speak_with_gtts text env a
    end
  else speak_with_gtts text env a.

(** The tiers that made a sound, oldest first. *)
Fixpoint audio_tiers (tr : list effect) : list tier :=
  match tr with
  | [] => []
  | AudioOut t _ :: r => audio_tiers r ++ [t]
  | _ :: r => audio_tiers r
  end.

(* ================================================================== *)
(** * Speech recognition *)
(* ================================================================== *)

Inductive result (A : Type) :=
| Return (v : A)
| Raise (exn : string).

Arguments Return {A} v.
Arguments Raise {A} exn.

(** Where an exception that [listen_for_speech] does not catch comes
    from: opening the microphone, [recognizer.listen], or
    [recognizer.recognize_google]. *)
Inductive stage := AtMicrophone | WhileListening | WhileRecognising.

(** What the microphone and the recognition backend do. *)
Inductive heard :=
| Recognised (text : string)   (* [recognize_google] returns [text] *)
| WaitTimeout                  (* [listen] raises [sr.WaitTimeoutError] *)
| UnknownValue                 (* [recognize_google] raises [sr.UnknownValueError] *)
| RequestFailed                (* [recognize_google] raises [sr.RequestError] *)
| Crashed (at_stage : stage) (exn : string).   (* anything else is raised *)

(** [listen_for_speech()]. *)
Definition listen_for_speech (h : heard) (a : assistant)
  : result (option string) * assistant :=
  match h with
  | Crashed AtMicrophone exn => (Raise exn, a)
  | Crashed WhileListening exn =>
      (Raise exn, update_status "Listening for speech..." a)
  | Crashed WhileRecognising exn =>
      (Raise exn,
       update_status "Processing speech..."
         (update_status "Listening for speech..." a))
  | WaitTimeout =>
      (Return None,
       update_status "No speech detected"
         (update_status "Listening for speech..." a))
  | Recognised text =>
      (Return (Some (Py.lower text)),
       update_status "Processing speech..."
         (update_status "Listening for speech..." a))
  | UnknownValue =>
      (Return None,
       update_status "Could not understand speech"
         (update_status "Processing speech..."
            (update_status "Listening for speech..." a)))
  | RequestFailed =>
      (Return None,
       update_status "Speech recognition error"
         (emit (LogError "Speech recognition error")
            (update_status "Processing speech..."
               (update_status "Listening for speech..." a))))
  end.

(* ================================================================== *)
(** * The three loops, one iteration at a time *)
(* ================================================================== *)

(** [capture_frame()]: [read] is what the camera driver delivers. *)
Definition capture_frame (read : option frame) (a : assistant) : option frame :=
  if camera a then read else None.

(** One iteration of [camera_loop]'s [while self.is_running] body.
    [None] means the thread is left waiting inside [Queue.put]. *)
Definition camera_loop_iter (read : option frame) (a : assistant)
  : option assistant :=
  if is_running a then
    match capture_frame read a with
    | Some f =>
        let a := set_current_frame (Some f) a in
        let a := emit (Display f) a in
        if negb (Queue.full (image_queue a)) then
          match Queue.put f (image_queue a) with
          | Some q => Some (set_image_queue q a)
          | None => None
          end
        else Some a
    | None => Some a
    end
  else Some a.

(** [x > y] on clock readings.  [time.time()] is a float; the interval
    is an integer, and rounding a difference is monotone, so the float
    comparison holds only if the exact one does. *)
Definition Qgtb (x y : Q) : bool := negb (Qle_bool x y).

(** What one iteration of the auto-describe loop is given: the clock
    when the guard is evaluated, the encoder, the endpoint, and the
    clock when the description has come back. *)
Record ai_inputs := AiInputs {
  now : Q;
  encodes : bool;
  reply : ai_reply;
  done : Q
}.

(** The guard of the auto-describe loop. *)
Definition due (t : Q) (a : assistant) : bool :=
  auto_describe a
  && Qgtb (t - last_description_time a) (inject_Z (description_interval a)).

(** One iteration of [ai_processing_loop]'s body.  [None] means the
    thread is left waiting inside [Queue.get]. *)
Definition ai_processing_loop_iter (i : ai_inputs) (a : assistant)
  : option assistant :=
  if is_running a then
    if due (now i) a then
      if negb (Queue.empty (image_queue a)) then
        match Queue.get (image_queue a) with
        | None => None
        | Some (f, q) =>
            let a := set_image_queue q a in
            match prepare_image_for_ai (encodes i) f a with
            | (Some image_data, a) =>
                let a := update_status "Analyzing image..." a in
                let '(description, a) :=
                  analyze_image_with_ai (reply i) image_data None a in
                let a := emit (LogText "AUTO: " description) a in
                let a := emit (SpeakThread description) a in
                let a := set_last_description_time (done i) a in
                Some (update_status "Description complete" a)
            | (None, a) => Some a
            end
        end
      else Some a
    else Some a
  else Some a.

(** What one iteration of the voice loop is given. *)
Record voice_inputs := VoiceInputs {
  v_heard : heard;
  v_encodes : bool;
  v_reply : ai_reply
}.

(** Python's truth value of a string. *)
Definition nonempty (s : string) : bool := negb (String.eqb s "").

(** One iteration of [voice_interaction_loop]'s body. *)
Definition voice_interaction_loop_iter (i : voice_inputs) (a : assistant)
  : assistant :=
  if is_running a then
    if is_listening a then
      match listen_for_speech (v_heard i) a with
      | (Raise _, a) => emit (LogError "Voice interaction error") a
      | (Return speech_text, a) =>
          let a :=
            match speech_text with
            | Some text =>
                if nonempty text then
                  let a := emit (LogText "YOU: " text) a in
                  match current_frame a with
                  | Some f =>
                      match prepare_image_for_ai (v_encodes i) f a with
                      | (Some image_data, a) =>
                          let '(response, a) :=
                            analyze_image_with_ai (v_reply i) image_data
                              (Some text) a in
                          let a := emit (LogText "AI: " response) a in
                          emit (SpeakThread response) a
                      | (None, a) => a
                      end
                  | None => a
                  end
                else a
            | None => a
            end in
          let a := set_is_listening false a in
          emit (VoiceButton (is_listening a)) a
      end
    else a
  else a.

(* ================================================================== *)
(** * Controls *)
(* ================================================================== *)

(** [start_assistant()]. *)
Definition start_assistant (a : assistant) : assistant :=
  if negb (ai_model a) || negb (camera a) then
    emit (ShowError "Error" "Cannot start - AI model or camera not available") a
  else
    let a := set_is_running true a in
    let a := emit (StartButton "Stop Assistant") a in
    let a := update_status "Starting assistant..." a in
    let a := emit (StartThread CameraLoop) a in
    let a := emit (StartThread AiLoop) a in
    let a := emit (StartThread VoiceLoop) a in
    let a := update_status "Assistant started" a in
    emit (LogText ""
            "AI Vision Assistant started. Press Space to ask questions via voice.")
         a.

(** [stop_assistant()]. *)
Definition stop_assistant (a : assistant) : assistant :=
  let a := set_is_running false a in
  let a := set_is_listening false a in
  let a := emit (StartButton "Start Assistant") a in
  let a := update_status "Stopping assistant..." a in
  let a := emit MixerStop a in
  let a := update_status "Assistant stopped" a in
  emit (LogText "" "AI Vision Assistant stopped.") a.

(** [toggle_assistant()]. *)
Definition toggle_assistant (a : assistant) : assistant :=
  if negb (is_running a) then start_assistant a else stop_assistant a.

(** [toggle_listening()]. *)
Definition toggle_listening (a : assistant) : assistant :=
  if negb (is_running a) then
    emit (ShowWarning "Warning" "Please start the assistant first") a
  else
    let a := set_is_listening (negb (is_listening a)) a in
    let a := emit (VoiceButton (is_listening a)) a in
    if is_listening a then update_status "Voice listening activated" a
    else update_status "Voice listening deactivated" a.

(** [toggle_auto_describe()]: [checked] is [auto_var.get()]. *)
Definition toggle_auto_describe (checked : bool) (a : assistant) : assistant :=
  let a := set_auto_describe checked a in
  update_status
    (if auto_describe a then "Auto-describe enabled" else "Auto-describe disabled")
    a.

(** [toggle_tts_quality()] is not needed below; the flag it sets is a
    field of the state. *)

(** [update_interval()]: the input is the text of [interval_var]. *)
Definition update_interval (a : assistant) : assistant :=
  match Py.int_of_str (interval_var a) with
  | Some new_interval =>
      if (5 <=? new_interval) && (new_interval <=? 60) then
        let a := set_description_interval new_interval a in
        update_status
          ("Analysis interval set to " ++ Py.str_of_int new_interval
             ++ " seconds")%string a
      else
        let a := set_interval_var (Py.str_of_int (description_interval a)) a in
        update_status "Interval must be between 5-60 seconds" a
  | None =>
      let a := set_interval_var (Py.str_of_int (description_interval a)) a in
      update_status "Invalid interval value" a
  end.

(** [update_speaking_speed()]: the input is the text of [speed_var].
    With no engine ([setup_audio] failed) the [setProperty] line raises
    [AttributeError], after the speed has been stored. *)
Definition update_speaking_speed (a : assistant) : result unit * assistant :=
  match float_of_var (speed_var a) with
  | Some new_speed =>
      if PrimFloat.leb 0.5 new_speed && PrimFloat.leb new_speed 2 then
        let a := set_speaking_speed new_speed a in
        let rate := Py.int_of_float (PrimFloat.mul 150 new_speed) in
        match tts_engine a with
        | Some _ =>
            let a := set_tts_engine (Some rate) a in
            (Return tt, update_status (SpeedSet new_speed) a)
        | None => (Raise "AttributeError", a)
        end
      else
        let a := set_speed_var (StrOfFloat (speaking_speed a)) a in
        (Return tt, update_status "Speed must be between 0.5x-2.0x" a)
  | None =>
      let a := set_speed_var (StrOfFloat (speaking_speed a)) a in
      (Return tt, update_status "Invalid speed value" a)
  end.

Definition has_frame (a : assistant) : bool :=
  match current_frame a with Some _ => true | None => false end.

(** [s.strip()]. *)
Definition str_strip (s : string) : string :=
  string_of_list_ascii (Py.strip (list_ascii_of_string s)).

(** [ask_question()], up to the thread it starts.  [question_var] is the
    text of the entry; the result is the entry's text afterwards, the
    question handed to the [process_question] thread if one is started,
    and the state. *)
Definition ask_question (question_var : string) (a : assistant)
  : string * option string * assistant :=
  let question := str_strip question_var in
  if negb (nonempty question) then (question_var, None, a)
  else if negb (is_running a) then
    (question_var, None,
     emit (ShowWarning "Warning" "Please start the assistant first") a)
  else
    match current_frame a with
    | None =>
        (question_var, None,
         emit (ShowWarning "Warning" "No camera frame available") a)
    | Some _ => ("", Some question, emit (LogText "YOU: " question) a)
    end.

(** The thread [ask_question] starts.  It reads [current_frame] when it
    runs; were that [None], [prepare_image_for_ai] would raise inside
    its own [try] and return [None]. *)
Definition process_question (question : string) (encodes : bool)
    (reply : ai_reply) (env : speech_env) (a : assistant) : assistant :=
  let a := update_status "Processing question..." a in
  let '(image_data, a) :=
    match current_frame a with
    | Some f => prepare_image_for_ai encodes f a
    | None => (None, emit (LogError "Error preparing image for AI") a)
    end in
  let a :=
    match image_data with
    | Some img =>
        let '(response, a) := analyze_image_with_ai reply img (Some question) a in
        let a := emit (LogText "AI: " response) a in
        speak_text response env a
    | None => a
    end in
  update_status "Question processed" a.

(* ================================================================== *)
(** * Runs: the loops and the controls, interleaved *)
(* ================================================================== *)

Inductive event :=
| CameraTick (read : option frame)
| AiTick (i : ai_inputs)
| VoiceTick (i : voice_inputs)
| Toggle                               (* the Start/Stop button *)
| Space                                (* the Listen button *)
| AutoDescribe (checked : bool)        (* the Auto-describe box *)
| Interval (typed : string)            (* the interval spin box *)
| Speed (typed : string)               (* the speed spin box *)
| Ask (typed : string) (encodes : bool) (reply : ai_reply) (env : speech_env).
                                       (* the question entry and its thread *)

(** A thread left waiting in a queue call makes no progress: the state
    stays as it is.  The thread a typed question starts is run to its
    end at once. *)
Definition step (e : event) (a : assistant) : assistant :=
  match e with
  | CameraTick read =>
      match camera_loop_iter read a with Some a' => a' | None => a end
  | AiTick i =>
      match ai_processing_loop_iter i a with Some a' => a' | None => a end
  | VoiceTick i => voice_interaction_loop_iter i a
  | Toggle => toggle_assistant a
  | Space => toggle_listening a
  | AutoDescribe checked => toggle_auto_describe checked a
  | Interval typed => update_interval (set_interval_var typed a)
  | Speed typed => snd (update_speaking_speed (set_speed_var (Typed typed) a))
  | Ask typed encodes reply env =>
      match ask_question typed a with
      | (_, Some question, a') => process_question question encodes reply env a'
      | (_, None, a') => a'
      end
  end.

Fixpoint run (es : list event) (a : assistant) : assistant :=
  match es with
  | [] => a
  | e :: r => run r (step e a)
  end.

(** The calls to [analyze_image_with_ai] made so far. *)
Fixpoint analysis_calls (tr : list effect) : nat :=
  match tr with
  | [] => 0%nat
  | Analyze _ _ :: r => S (analysis_calls r)
  | _ :: r => analysis_calls r
  end.

(** The newest call to [analyze_image_with_ai]: its image and question. *)
Fixpoint last_analysis (tr : list effect) : option (image * option string) :=
  match tr with
  | [] => None
  | Analyze img q :: _ => Some (img, q)
  | _ :: r => last_analysis r
  end.

(** Whether event [e] makes the auto-describe loop call the analysis. *)
Definition issues (e : event) (a : assistant) : bool :=
  match e with
  | AiTick _ =>
      Nat.ltb (analysis_calls (trace a)) (analysis_calls (trace (step e a)))
  | _ => false
  end.

(** The auto-describe analyses of a run, oldest first: for each, the
    clock at its guard, the interval in force then, and the clock
    written to [last_description_time] when it completed. *)
Fixpoint auto_log (es : list event) (a : assistant) : list (Q * Z * Q) :=
  match es with
  | [] => []
  | e :: r =>
      match e with
      | AiTick i =>
          if issues e a then [(now i, description_interval a, done i)] else []
      | _ => []
      end ++ auto_log r (step e a)
  end.

(** Each analysis starts more than its interval after the stamp left by
    the one before ([last] for the first). *)
Fixpoint spaced (last : Q) (log : list (Q * Z * Q)) : Prop :=
  match log with
  | [] => True
  | (t, interval, d) :: r => (inject_Z interval < t - last)%Q /\ spaced d r
  end.

(* ================================================================== *)
(** * Proof tools *)
(* ================================================================== *)

(** Case analysis on whatever a [match] or an [if] of the goal looks at. *)
Ltac break_match :=
  match goal with
  | |- context [match ?x with _ => _ end] =>
      lazymatch x with
      | context [match _ with _ => _ end] => fail
      | _ => destruct x eqn:?
      end
  end.

Ltac break_all := repeat (cbn [fst snd] in *; break_match); cbn [fst snd] in *.

(** Equations between constructors: take them apart or refute them. *)
Ltac invert_eqs :=
  repeat match goal with
         | E : Some _ = Some _ |- _ => injection E as <-
         | E : (_, _) = (_, _) |- _ => injection E as <- <-
         | E : Some _ = None |- _ => discriminate E
         | E : None = Some _ |- _ => discriminate E
         end.

(** An effect that is not a call to the model. *)
Definition quiet (e : effect) : Prop :=
  match e with Analyze _ _ => False | _ => True end.

(** A call to the model, if it is one, asks [question]. *)
Definition asked (question : string) (e : effect) : Prop :=
  match e with Analyze _ q => q = Some question | _ => True end.

(** A call to the model, if it is one, asks [question], which is not
    empty. *)
Definition typed_analysis (question : string) (e : effect) : Prop :=
  match e with
  | Analyze _ q => q = Some question /\ nonempty question = true
  | _ => True
  end.

Lemma analysis_calls_app (tr r : list effect) :
  analysis_calls (tr ++ r) = (analysis_calls tr + analysis_calls r)%nat.
Proof.
  induction tr as [|e tr IH]; [reflexivity|].
  destruct e; cbn; rewrite ?IH; reflexivity.
Qed.

Lemma last_analysis_app (tr r : list effect) (x : image * option string) :
  last_analysis tr = Some x -> last_analysis (tr ++ r) = Some x.
Proof.
  induction tr as [|e tr IH]; [discriminate|].
  destruct e; cbn; auto.
Qed.

Lemma quiet_prefix (tr r : list effect) :
  Forall quiet tr ->
  analysis_calls (tr ++ r) = analysis_calls r
  /\ last_analysis (tr ++ r) = last_analysis r.
Proof.
  induction 1 as [|e tr Q _ IH]; [split; reflexivity|].
  destruct e; try contradiction; cbn; exact IH.
Qed.

(** [speak_text] touches nothing but the outside world, and does not
    call the model. *)
Lemma speak_text_only_trace (text : string) (env : speech_env) (a : assistant) :
  exists tr,
    speak_text text env a = set_trace (tr ++ trace a)%list a
    /\ Forall quiet tr.
Proof.
  unfold speak_text, speak_with_google_cloud_tts, speak_with_gtts,
    speak_with_pyttsx3, play, update_status, emit.
  destruct a as [r l d t iv sp ug key ai cam eng q cf ivar svar n tr0].
  cbn [use_google_tts_api google_tts_api_key tts_engine trace set_trace].
  destruct (cloud env) as [|c audio [| |]], (gtts env) as [|[| |]];
    break_all; invert_eqs; cbn;
    first [ exists []; split; [reflexivity | repeat constructor]
          | eexists [_]; split; [reflexivity | repeat constructor]
          | eexists [_; _]; split; [reflexivity | repeat constructor]
          | eexists [_; _; _]; split; [reflexivity | repeat constructor]
          | eexists [_; _; _; _]; split; [reflexivity | repeat constructor]
          | eexists [_; _; _; _; _]; split; [reflexivity | repeat constructor]
          | eexists [_; _; _; _; _; _]; split; [reflexivity | repeat constructor]
          | eexists [_; _; _; _; _; _; _];
            split; [reflexivity | repeat constructor] ].
Qed.

(** The image [prepare_image_for_ai] makes of a frame. *)
Definition image_of (f : frame) : image :=
  Image (fst (resized_shape (f_height f) (f_width f)))
    (snd (resized_shape (f_height f) (f_width f))) (f_pixels f).

(** In the middle of [process_question]: speak, then set the last
    status. *)
Ltac after_speech a n pre :=
  match goal with
  | |- context [speak_text ?t ?v ?b] =>
      let sp := fresh "sp" in
      let E := fresh "E" in
      let Q := fresh "Q" in
      destruct (speak_text_only_trace t v b) as (sp & E & Q); rewrite E;
      exists n, (sp ++ pre)%list;
      destruct (quiet_prefix sp pre Q) as [C L];
      split; [destruct a; cbn; rewrite <- app_assoc; reflexivity|];
      split; [rewrite C; reflexivity|];
      split; [rewrite C; cbn; lia|];
      split; [apply Forall_app; split;
              [eapply Forall_impl; [|exact Q]; intros []; cbn; tauto
              | repeat constructor]|];
      intros f' E' _; rewrite L; cbn; injection E' as <-;
      match goal with
      | S : resized_shape _ _ = _ |- _ => rewrite S; reflexivity
      end
  end.

(** What the thread behind a typed question does to the state. *)
Lemma process_question_frame (question : string) (encodes : bool)
    (reply : ai_reply) (env : speech_env) (a : assistant) :
  exists n tr,
    process_question question encodes reply env a
    = set_api_call_count n
        (set_trace (Status "Question processed" :: tr ++ trace a)%list a)
    /\ analysis_calls tr = (if has_frame a && encodes then 1 else 0)%nat
    /\ api_call_count a <= n <= api_call_count a + Z.of_nat (analysis_calls tr)
    /\ Forall (asked question) tr
    /\ (forall f, current_frame a = Some f -> encodes = true ->
        last_analysis tr = Some (image_of f, Some question)).
Proof.
  unfold process_question, has_frame, prepare_image_for_ai, image_of.
  cbn [current_frame update_status emit set_trace].
  destruct (current_frame a) as [f|] eqn:F; cbn [andb].
  - destruct encodes.
    + destruct (resized_shape (f_height f) (f_width f)) as [h w] eqn:S.
      unfold analyze_image_with_ai, update_status.
      cbn [ai_model api_call_count emit set_trace].
      destruct (ai_model a) eqn:M; [destruct reply|]; cbn [negb].
      * after_speech a (api_call_count a + 1)
          [LogText "AI: " text; Analyze (Image h w (f_pixels f)) (Some question);
           Status "Processing question..."].
      * after_speech a (api_call_count a + 1)
          [LogText "AI: " ("Error analyzing image: " ++ msg)%string;
           LogError "AI analysis error";
           Analyze (Image h w (f_pixels f)) (Some question);
           Status "Processing question..."].
      * after_speech a (api_call_count a)
          [LogText "AI: " ("Error analyzing image: " ++ msg)%string;
           LogError "AI analysis error";
           Analyze (Image h w (f_pixels f)) (Some question);
           Status "Processing question..."].
      * after_speech a (api_call_count a)
          [LogText "AI: " "AI model not available";
           Analyze (Image h w (f_pixels f)) (Some question);
           Status "Processing question..."].
    + exists (api_call_count a),
        [LogError "Error preparing image for AI";
         Status "Processing question..."].
      split; [destruct a; reflexivity|]. cbn.
      repeat split; try lia; try discriminate; repeat constructor.
  - exists (api_call_count a),
      [LogError "Error preparing image for AI"; Status "Processing question..."].
    split; [destruct a; reflexivity|]. cbn.
    repeat split; try lia; try discriminate; repeat constructor.
Qed.

(** What a typed question does to the state, thread included. *)
Lemma ask_step (typed : string) (encodes : bool) (reply : ai_reply)
    (env : speech_env) (a : assistant) :
  exists n tr,
    step (Ask typed encodes reply env) a
    = set_api_call_count n (set_trace (tr ++ trace a)%list a)
    /\ api_call_count a <= n <= api_call_count a + Z.of_nat (analysis_calls tr)
    /\ Forall (typed_analysis (str_strip typed)) tr.
Proof.
  cbn [step]. unfold ask_question.
  destruct (nonempty (str_strip typed)) eqn:N; cbn [negb].
  - destruct (is_running a); cbn [negb]; [destruct (current_frame a)|].
    + destruct (process_question_frame (str_strip typed) encodes reply env
                  (emit (LogText "YOU: " (str_strip typed)) a))
        as (n & tr & E & _ & B & Fa & _).
      rewrite E.
      exists n, (Status "Question processed"
                 :: tr ++ [LogText "YOU: " (str_strip typed)])%list.
      split; [destruct a; cbn; rewrite <- app_assoc; reflexivity|].
      split.
      * cbn [analysis_calls]. rewrite analysis_calls_app. cbn in B |- *. lia.
      * constructor; [exact I|]. apply Forall_app. split.
        -- eapply Forall_impl; [|exact Fa]. intros []; cbn; auto.
        -- repeat constructor.
    + exists (api_call_count a),
        [ShowWarning "Warning" "No camera frame available"].
      split; [destruct a; reflexivity|]. cbn. split; [lia|repeat constructor].
    + exists (api_call_count a),
        [ShowWarning "Warning" "Please start the assistant first"].
      split; [destruct a; reflexivity|]. cbn. split; [lia|repeat constructor].
  - exists (api_call_count a), []. split; [destruct a; reflexivity|].
    cbn. split; [lia|constructor].
Qed.

(** Replace a typed-question step by the record it builds. *)
Ltac open_ask :=
  try match goal with
      | |- context [step (Ask ?t ?c ?r ?v) ?a] =>
          let n := fresh "n" in
          let tr := fresh "tr" in
          let E := fresh "E" in
          destruct (ask_step t c r v a) as (n & tr & E & ? & ?);
          rewrite E; clear E;
          cbn [is_running is_listening auto_describe last_description_time
               description_interval speaking_speed use_google_tts_api
               google_tts_api_key ai_model camera tts_engine image_queue
               current_frame interval_var speed_var api_call_count trace
               set_api_call_count set_trace]
      end.

(** Open one [step] down to the record it builds, case by case. *)
Ltac unfold_step :=
  open_ask;
  cbn [step];
  unfold camera_loop_iter, capture_frame, ai_processing_loop_iter,
    voice_interaction_loop_iter, listen_for_speech, prepare_image_for_ai,
    analyze_image_with_ai, toggle_assistant, start_assistant, stop_assistant,
    toggle_listening, toggle_auto_describe, update_speaking_speed,
    Queue.put, Queue.get in *;
  break_all; invert_eqs.

Lemma Qgtb_lt (x y : Q) : Qgtb x y = true <-> (y < x)%Q.
Proof.
  unfold Qgtb. rewrite negb_true_iff. split; intro H.
  - apply Qnot_le_lt. intro L. apply Qle_bool_iff in L. congruence.
  - destruct (Qle_bool x y) eqn:E; [|reflexivity].
    apply Qle_bool_iff in E. exfalso. exact (Qlt_not_le _ _ H E).
Qed.

(* ================================================================== *)
(** * The recogniser's results (C5, C10) *)
(* ================================================================== *)








(** The claim of C5 as it is worded fails: with the backend unreachable
    the method returns the same [None] as on a timeout, so "returns
    [None]" does not single out timeouts and unintelligible audio. *)
Lemma listen_for_speech_unreachable_is_none :
  fst (listen_for_speech RequestFailed (init true AudioReady true)) = Return None
  /\ ~ (forall h a,
          fst (listen_for_speech h a) = Return None <->
          h = WaitTimeout \/ h = UnknownValue).
Proof.
  split; [reflexivity|].
  intro H. destruct (proj1 (H RequestFailed (init true AudioReady true)) eq_refl);
    discriminate.
Qed.

(** C5, amended: [listen_for_speech] returns [None] exactly on a
    timeout, on unintelligible audio and on an unreachable backend; the
    three differ only in the status bar (and the error log of the
    last); it returns a text exactly when the backend recognised one,
    and it never returns an error value. *)
Theorem listen_for_speech_none (h : heard) (a : assistant) :
  (fst (listen_for_speech h a) = Return None <->
     h = WaitTimeout \/ h = UnknownValue \/ h = RequestFailed)
  /\ ((exists text, fst (listen_for_speech h a) = Return (Some text)) <->
        exists said, h = Recognised said)
  /\ status_var (snd (listen_for_speech WaitTimeout a))
       = Some (Msg "No speech detected")
  /\ status_var (snd (listen_for_speech UnknownValue a))
       = Some (Msg "Could not understand speech")
  /\ status_var (snd (listen_for_speech RequestFailed a))
       = Some (Msg "Speech recognition error")
  /\ trace (snd (listen_for_speech RequestFailed a))
       = Status "Speech recognition error"
           :: LogError "Speech recognition error"
           :: Status "Processing speech..."
           :: Status "Listening for speech..." :: trace a.
Proof.
  repeat split; try reflexivity.
  - destruct h as [| | | |[] ?]; cbn; intro E; try discriminate; auto.
  - intros [-> | [-> | ->]]; reflexivity.
  - intros [text E]. destruct h as [| | | |[] ?]; cbn in E; try discriminate.
    eauto.
  - intros [said ->]. cbn. eauto.
Qed.

(* ================================================================== *)
(** * The interval setter (C2) *)
(* ================================================================== *)




Lemma update_interval_range (a : assistant) :
  5 <= description_interval a <= 60 ->
  5 <= description_interval (update_interval a) <= 60.
Proof.
  intro R. unfold update_interval.
  destruct (Py.int_of_str (interval_var a)) as [v|]; [|exact R].
  destruct ((5 <=? v) && (v <=? 60)) eqn:E; [|exact R].
  apply andb_true_iff in E as [E1 E2]. apply Z.leb_le in E1, E2.
  cbn. lia.
Qed.

(** The interval is a field only the interval setter assigns. *)
Lemma step_interval (e : event) (a : assistant) :
  (forall typed, e <> Interval typed) ->
  description_interval (step e a) = description_interval a.
Proof.
  intro H. destruct e; unfold_step; try reflexivity.
  exfalso. now apply (H typed).
Qed.

Lemma step_interval_range (e : event) (a : assistant) :
  5 <= description_interval a <= 60 ->
  5 <= description_interval (step e a) <= 60.
Proof.
  intro R. destruct e;
    try (rewrite step_interval; [exact R | intros ? ?; discriminate]).
  cbn [step]. apply update_interval_range. exact R.
Qed.




(* ================================================================== *)
(** * The speed setter (C6) *)
(* ================================================================== *)

(** [int(x)] cuts the fraction off: for a positive [x = m * 2^e] with
    [e < 0] it is the quotient of [m] by [2^-e]. *)
Lemma int_of_float_truncates (x : float) (m p : positive) :
  Prim2SF x = S754_finite false m (Zneg p) ->
  Py.int_of_float x * 2 ^ Zpos p <= Zpos m < (Py.int_of_float x + 1) * 2 ^ Zpos p.
Proof.
  intro E. unfold Py.int_of_float. rewrite E.
  rewrite Z.shiftr_div_pow2 by lia.
  assert (P : 0 < 2 ^ Zpos p) by (apply Z.pow_pos_nonneg; lia).
  pose proof (Z.div_mod (Zpos m) (2 ^ Zpos p) ltac:(lia)) as D.
  pose proof (Z.mod_pos_bound (Zpos m) (2 ^ Zpos p) P) as B.
  nia.
Qed.

(** What the setter does with a rejected input. *)
Definition speed_rejected (a : assistant) (r : result unit * assistant) : Prop :=
  fst r = Return tt
  /\ speaking_speed (snd r) = speaking_speed a
  /\ tts_engine (snd r) = tts_engine a
  /\ speed_var (snd r) = StrOfFloat (speaking_speed a)
  /\ (status_var (snd r) = Some (Msg "Speed must be between 0.5x-2.0x")
      \/ status_var (snd r) = Some (Msg "Invalid speed value")).

(** The claim of C6 as it is worded fails: 1.25 is accepted, and the
    engine is set to 187 words per minute, where [round(150 * 1.25)],
    the rounding of 187.5, is 188. *)
Lemma update_speaking_speed_not_rounded :
  Py.float_of_str "1.25" = Some 1.25%float
  /\ PrimFloat.leb 0.5 1.25 && PrimFloat.leb 1.25 2 = true
  /\ tts_engine
       (snd (update_speaking_speed
               (set_speed_var (Typed "1.25") (init true AudioReady true))))
     = Some 187
  /\ Py.round_float (PrimFloat.mul 150 1.25) = 188.
Proof. vm_compute. repeat split; reflexivity. Qed.

(** C6, amended: an input that reads as a number [s] with
    [0.5 <= s <= 2.0] becomes the stored speed, and the local engine,
    if one was created, has its rate set to [int(150 * s)], the product
    with its fraction cut off (not rounded); any other input leaves the
    stored speed and the engine's rate alone and puts the stored speed
    back in the spin box. *)
Theorem update_speaking_speed_spec (typed : string) (a : assistant) :
  (forall s,
     Py.float_of_str typed = Some s ->
     PrimFloat.leb 0.5 s = true -> PrimFloat.leb s 2 = true ->
     speaking_speed (snd (update_speaking_speed (set_speed_var (Typed typed) a)))
     = s
     /\ tts_engine (snd (update_speaking_speed (set_speed_var (Typed typed) a)))
        = option_map (fun _ => Py.int_of_float (PrimFloat.mul 150 s))
            (tts_engine a)
     /\ speed_var (snd (update_speaking_speed (set_speed_var (Typed typed) a)))
        = Typed typed)
  /\ ((forall s, Py.float_of_str typed = Some s ->
         PrimFloat.leb 0.5 s && PrimFloat.leb s 2 = false) ->
      speed_rejected a (update_speaking_speed (set_speed_var (Typed typed) a))).
Proof.
  split.
  - intros s E L U. unfold update_speaking_speed.
    cbn [speed_var set_speed_var float_of_var]. rewrite E, L, U.
    cbn [andb tts_engine set_speaking_speed set_speed_var].
    destruct (tts_engine a) eqn:T; cbn; auto.
  - intro H. unfold update_speaking_speed, speed_rejected.
    cbn [speed_var set_speed_var float_of_var].
    destruct (Py.float_of_str typed) as [s|].
    + rewrite (H s eq_refl). cbn. auto 6.
    + cbn. auto 6.
Qed.

(** A separator around the number is not a blank to [float]: the input
    is rejected, as [int] rejects it for the interval. *)
Lemma numbers_with_separators_rejected :
  Py.float_of_str (String (ascii_of_nat 49)
                     (String (ascii_of_nat 46)
                        (String (ascii_of_nat 53)
                           (String (ascii_of_nat 31) EmptyString)))) = None
  /\ Py.int_of_str (String (ascii_of_nat 28) "45") = None
  /\ Py.int_of_str (String (ascii_of_nat 160) "45") = Some 45
  /\ Py.int_of_str
       (string_of_list_ascii (repeat (ascii_of_nat 48) 4300 ++ ["7"%char]))
     = None.
Proof. vm_compute. repeat split; reflexivity. Qed.

Lemma update_speaking_speed_spec_witness :
  tts_engine
    (snd (update_speaking_speed
            (set_speed_var (Typed "0.8") (init true AudioReady true))))
  = Some 120
  /\ tts_engine
       (snd (update_speaking_speed
               (set_speed_var (Typed "0.8") (init true NoEngine true))))
     = None
  /\ speed_rejected (init true AudioReady true)
       (update_speaking_speed (set_speed_var (Typed "3") (init true AudioReady true))).
Proof.
  split; [|split].
  - destruct (proj1 (update_speaking_speed_spec "0.8" (init true AudioReady true))
                0x1.999999999999ap-1%float)
      as (_ & E & _); try reflexivity.
  - destruct (proj1 (update_speaking_speed_spec "0.8" (init true NoEngine true))
                0x1.999999999999ap-1%float)
      as (_ & E & _); try reflexivity.
  - apply (proj2 (update_speaking_speed_spec "3" (init true AudioReady true))).
    intros s E. vm_compute in E. injection E as <-. reflexivity.
Defined.

(* ================================================================== *)
(** * The size of the encoded image (C7) *)
(* ================================================================== *)

(** Frames no wider than 800 keep their size. *)
Lemma resized_shape_narrow (height width : Z) :
  width <= 800 -> resized_shape height width = (height, width).
Proof.
  intro H. unfold resized_shape.
  destruct (800 <? width) eqn:E; [apply Z.ltb_lt in E; lia | reflexivity].
Qed.

(** The widths from [lo] on, [n] of them. *)
Definition widths (lo : Z) (n : nat) : list Z :=
  map (fun k => lo + Z.of_nat k) (seq 0 n).

(** Every width from 801 to 8192 comes out as 800 or as 799. *)
Lemma resized_width_800_or_799 :
  forallb (fun w => let nw := snd (resized_shape 1 w) in
                    (nw =? 800) || (nw =? 799))
          (widths 801 (Z.to_nat 7392)) = true.
Proof. vm_compute. reflexivity. Qed.

(** And 799 does occur: 355 widths of that range. *)
Lemma resized_width_799_count :
  List.length (filter (fun w => snd (resized_shape 1 w) =? 799)
                 (widths 801 (Z.to_nat 7392))) = 355%nat.
Proof. vm_compute. reflexivity. Qed.

(** C7 fails on the code: a 4624 x 3472 frame (a 16-megapixel sensor)
    is encoded 799 pixels wide, not 800.  [800 / 4624] rounds down to
    the binary64 below 100/578, the product [4624 * scale] rounds to
    799.9999999999999, and [int] cuts it to 799. *)
Theorem prepare_image_for_ai_width_799 (a : assistant) (pixels : N) :
  prepare_image_for_ai true (Frame 3472 4624 pixels) a
  = (Some (Image 600 799 pixels), a).
Proof. unfold prepare_image_for_ai. vm_compute. reflexivity. Qed.

(* ================================================================== *)
(** * Starting (C8) *)
(* ================================================================== *)

(** C8: [start_assistant] sets [is_running] only with both the AI model
    and the camera at hand; with either missing it shows an error box
    and changes nothing else, so a stopped pipeline stays stopped. *)
Theorem start_assistant_fails_closed (a : assistant) :
  (ai_model a = true -> camera a = true ->
     is_running (start_assistant a) = true
     /\ firstn 3 (filter (fun e => match e with StartThread _ => true | _ => false end)
                    (trace (start_assistant a)))
        = [StartThread VoiceLoop; StartThread AiLoop; StartThread CameraLoop])
  /\ (ai_model a = false \/ camera a = false ->
        start_assistant a
        = emit (ShowError "Error" "Cannot start - AI model or camera not available") a
        /\ is_running (start_assistant a) = is_running a)
  /\ (is_running a = false -> is_running (start_assistant a) = true ->
        ai_model a = true /\ camera a = true).
Proof.
  unfold start_assistant. split; [|split].
  - intros -> ->. split; reflexivity.
  - intros [-> | ->]; [split; reflexivity|].
    rewrite orb_true_r. split; reflexivity.
  - intros Stopped Started.
    destruct (ai_model a), (camera a); cbn in Started; try congruence; auto.
Qed.

Lemma start_assistant_fails_closed_witness :
  is_running (start_assistant (init true AudioReady true)) = true
  /\ is_running (start_assistant (init true AudioReady false)) = false
  /\ trace (start_assistant (init false AudioReady true))
     = [ShowError "Error" "Cannot start - AI model or camera not available"].
Proof.
  split; [|split].
  - apply (proj1 (start_assistant_fails_closed (init true AudioReady true)));
      reflexivity.
  - destruct (proj1 (proj2 (start_assistant_fails_closed (init true AudioReady false)))
                (or_intror eq_refl)) as [_ E].
    rewrite E. reflexivity.
  - destruct (proj1 (proj2 (start_assistant_fails_closed (init false AudioReady true)))
                (or_introl eq_refl)) as [E _].
    rewrite E. reflexivity.
Defined.

(* ================================================================== *)
(** * Listening once per activation (C9) *)
(* ================================================================== *)

(** The outcomes of one attempt that [listen_for_speech] turns into a
    result: a recognised text, a timeout, unintelligible audio, or an
    unreachable backend. *)
Definition answers (h : heard) : Prop :=
  match h with Crashed _ _ => False | _ => True end.

Lemma voice_iter_idle (i : voice_inputs) (a : assistant) :
  is_listening a = false -> voice_interaction_loop_iter i a = a.
Proof.
  intro H. unfold voice_interaction_loop_iter. rewrite H.
  now destruct (is_running a).
Qed.

(** The attempts to listen made so far: each one opens with the status
    "Listening for speech...". *)
Fixpoint listen_attempts (tr : list effect) : nat :=
  match tr with
  | [] => 0%nat
  | Status (Msg m) :: r =>
      if String.eqb m "Listening for speech..." then S (listen_attempts r)
      else listen_attempts r
  | _ :: r => listen_attempts r
  end.

Lemma run_voice_idle (later : list voice_inputs) (a : assistant) :
  is_listening a = false -> run (map VoiceTick later) a = a.
Proof.
  intro H. induction later as [|i r IH]; cbn [map run step]; [reflexivity|].
  now rewrite voice_iter_idle.
Qed.

Lemma voice_iter_clears (i : voice_inputs) (a : assistant) :
  is_running a = true -> is_listening a = true -> answers (v_heard i) ->
  is_listening (voice_interaction_loop_iter i a) = false.
Proof.
  intros R L H. unfold voice_interaction_loop_iter. rewrite R, L.
  destruct (v_heard i); try contradiction; cbn [listen_for_speech];
    reflexivity.
Qed.

Lemma voice_iter_one_attempt (i : voice_inputs) (a : assistant) :
  is_running a = true -> is_listening a = true -> answers (v_heard i) ->
  listen_attempts (trace (voice_interaction_loop_iter i a))
  = S (listen_attempts (trace a)).
Proof.
  intros R L H. unfold voice_interaction_loop_iter. rewrite R, L.
  destruct (v_heard i); try contradiction; cbn [listen_for_speech];
    try reflexivity.
  unfold prepare_image_for_ai, analyze_image_with_ai.
  break_all; invert_eqs; reflexivity.
Qed.

Lemma voice_iter_none_quiet (i : voice_inputs) (a : assistant) :
  fst (listen_for_speech (v_heard i) a) = Return None ->
  analysis_calls (trace (voice_interaction_loop_iter i a))
  = analysis_calls (trace a).
Proof.
  intro N. unfold voice_interaction_loop_iter.
  destruct (is_running a); [|reflexivity].
  destruct (is_listening a); [|reflexivity].
  destruct (v_heard i) as [| | | |[] ?]; cbn in N; try discriminate;
    reflexivity.
Qed.

(** Outside those outcomes: when anything else is raised, the loop's
    handler logs it after the statuses shown so far, and the flag stays
    set. *)
Lemma voice_iter_crash_keeps_listening (i : voice_inputs) (a : assistant)
    (at_stage : stage) (exn : string) :
  is_running a = true -> is_listening a = true ->
  v_heard i = Crashed at_stage exn ->
  voice_interaction_loop_iter i a
  = emit (LogError "Voice interaction error")
      (snd (listen_for_speech (Crashed at_stage exn) a))
  /\ is_listening (voice_interaction_loop_iter i a) = true.
Proof.
  intros R L H. unfold voice_interaction_loop_iter. rewrite R, L, H.
  destruct at_stage; cbn; auto.
Qed.

(** C9: with voice mode on, one iteration of the voice loop makes one
    attempt to listen and, whether that ends in a text, a timeout,
    unintelligible audio (or an unreachable backend), clears
    [is_listening], so the iterations after it make no further attempt;
    when the recogniser returned [None] no analysis call was made. *)
Theorem voice_interaction_listens_once (i : voice_inputs) (a : assistant) :
  is_running a = true -> is_listening a = true -> answers (v_heard i) ->
  is_listening (voice_interaction_loop_iter i a) = false
  /\ listen_attempts (trace (voice_interaction_loop_iter i a))
     = S (listen_attempts (trace a))
  /\ (forall later,
        run (map VoiceTick later) (voice_interaction_loop_iter i a)
        = voice_interaction_loop_iter i a)
  /\ (fst (listen_for_speech (v_heard i) a) = Return None ->
        analysis_calls (trace (voice_interaction_loop_iter i a))
        = analysis_calls (trace a)).
Proof.
  intros R L H. split; [|split; [|split]].
  - now apply voice_iter_clears.
  - now apply voice_iter_one_attempt.
  - intro later. apply run_voice_idle. now apply voice_iter_clears.
  - apply voice_iter_none_quiet.
Qed.

(** The state voice mode is activated in: started, then Space pressed. *)
Definition listening_state : assistant :=
  run [Toggle; CameraTick (Some (Frame 480 640 1)); Space] (init true AudioReady true).

Lemma voice_interaction_listens_once_witness :
  is_listening listening_state = true
  /\ is_listening
       (voice_interaction_loop_iter
          (VoiceInputs WaitTimeout true (Generated "a desk")) listening_state)
     = false
  /\ analysis_calls
       (trace (voice_interaction_loop_iter
                 (VoiceInputs WaitTimeout true (Generated "a desk"))
                 listening_state))
     = 0%nat.
Proof.
  split; [reflexivity|].
  destruct (voice_interaction_listens_once
              (VoiceInputs WaitTimeout true (Generated "a desk"))
              listening_state eq_refl eq_refl I) as (C & _ & _ & Q).
  split; [exact C|]. rewrite (Q eq_refl). reflexivity.
Defined.

(* ================================================================== *)
(** * The frame queue (C3) *)
(* ================================================================== *)














(* ================================================================== *)
(** * The auto-describe loop (C1) *)
(* ================================================================== *)

(** When an iteration of the auto-describe loop gets as far as the
    analysis: the loop runs, the guard holds, a frame is queued and it
    encodes. *)
Definition fires (i : ai_inputs) (a : assistant) : bool :=
  is_running a && due (now i) a
  && negb (Queue.empty (image_queue a)) && encodes i.

Lemma due_spec (t : Q) (a : assistant) :
  due t a = true <->
  auto_describe a = true
  /\ (inject_Z (description_interval a) < t - last_description_time a)%Q.
Proof. unfold due. now rewrite andb_true_iff, Qgtb_lt. Qed.

Lemma empty_items {A : Type} (q : Queue.t A) :
  Queue.empty q = false -> exists x r, Queue.items q = x :: r.
Proof.
  unfold Queue.empty, Queue.qsize. destruct (Queue.items q) as [|x r].
  - cbn. discriminate.
  - eauto.
Qed.

Lemma ai_step_fires (i : ai_inputs) (a : assistant) :
  fires i a = true ->
  analysis_calls (trace (step (AiTick i) a)) = S (analysis_calls (trace a))
  /\ last_description_time (step (AiTick i) a) = done i.
Proof.
  unfold fires. rewrite !andb_true_iff, negb_true_iff.
  intros (((R & D) & E) & C).
  destruct (empty_items _ E) as (f & r & I).
  cbn [step]. unfold ai_processing_loop_iter, Queue.get, prepare_image_for_ai.
  rewrite R, D, E, I, C. cbn [negb].
  destruct (resized_shape (f_height f) (f_width f)) as [h w].
  unfold analyze_image_with_ai. break_all; split; reflexivity.
Qed.

Lemma ai_step_idle (i : ai_inputs) (a : assistant) :
  fires i a = false ->
  analysis_calls (trace (step (AiTick i) a)) = analysis_calls (trace a)
  /\ last_description_time (step (AiTick i) a) = last_description_time a.
Proof.
  unfold fires. intro F.
  cbn [step]. unfold ai_processing_loop_iter, Queue.get, prepare_image_for_ai.
  destruct (is_running a); [|now split].
  destruct (due (now i) a); [|now split].
  destruct (Queue.empty (image_queue a)); cbn [negb]; [now split|].
  destruct (Queue.items (image_queue a)) as [|f r]; [now split|].
  cbn in F. rewrite F. now split.
Qed.

(** The loop issues an analysis exactly when it fires. *)
Lemma issues_fires (i : ai_inputs) (a : assistant) :
  issues (AiTick i) a = fires i a.
Proof.
  unfold issues. destruct (fires i a) eqn:F.
  - destruct (ai_step_fires i a F) as [-> _]. apply Nat.ltb_lt. lia.
  - destruct (ai_step_idle i a F) as [-> _]. apply Nat.ltb_irrefl.
Qed.

(** Nothing but the auto-describe loop writes the time stamp. *)
Lemma step_last_time (e : event) (a : assistant) :
  (forall i, e <> AiTick i) ->
  last_description_time (step e a) = last_description_time a.
Proof.
  intro H. destruct e; try (exfalso; eapply H; reflexivity).
  - unfold_step; reflexivity.
  - unfold_step; reflexivity.
  - unfold_step; reflexivity.
  - unfold_step; reflexivity.
  - unfold_step; reflexivity.
  - cbn [step]. unfold update_interval. break_all; reflexivity.
  - unfold_step; reflexivity.
  - unfold_step; reflexivity.
Qed.

Lemma auto_log_spaced (es : list event) (a : assistant) :
  spaced (last_description_time a) (auto_log es a).
Proof.
  revert a. induction es as [|e r IH]; intro a; cbn [auto_log]; [exact I|].
  destruct e;
    try (cbn [app];
         match goal with
         | |- context [step ?e a] =>
             rewrite <- (step_last_time e a) by (intros ? ?; discriminate)
         end;
         apply IH).
  rewrite issues_fires. destruct (fires i a) eqn:F; cbn [app spaced].
  - destruct (ai_step_fires i a F) as [_ T].
    split; [|rewrite <- T; apply IH].
    unfold fires in F. rewrite !andb_true_iff in F.
    destruct F as (((_ & D) & _) & _). now apply due_spec in D.
  - destruct (ai_step_idle i a F) as [_ T]. rewrite <- T. apply IH.
Qed.

(** C1: an iteration of the auto-describe loop calls the analysis only
    with [auto_describe] set and the clock more than the interval past
    [last_description_time]; the call done, it writes the clock to
    [last_description_time], which nothing else assigns; so in any run
    every analysis of the loop starts more than the interval then in
    force after the stamp the one before it left. *)
Theorem auto_describe_spacing :
  (forall i a,
     issues (AiTick i) a = true ->
     auto_describe a = true
     /\ (inject_Z (description_interval a) < now i - last_description_time a)%Q
     /\ last_description_time (step (AiTick i) a) = done i)
  /\ (forall e a,
        issues e a = false ->
        last_description_time (step e a) = last_description_time a)
  /\ (forall es a, spaced (last_description_time a) (auto_log es a)).
Proof.
  split; [|split].
  - intros i a H. rewrite issues_fires in H.
    destruct (ai_step_fires i a H) as [_ T].
    unfold fires in H. rewrite !andb_true_iff in H.
    destruct H as (((_ & D) & _) & _). apply due_spec in D. tauto.
  - intros e a H. destruct e;
      try (apply step_last_time; intros ? ?; discriminate).
    rewrite issues_fires in H. now apply ai_step_idle.
  - apply auto_log_spaced.
Qed.

(** 25 seconds of frames at interval 10, the clock starting at 0: the
    loop analyses at 10.5 and at 21.5, not at 20. *)
Definition two_descriptions : list event :=
  [Toggle;
   CameraTick (Some (Frame 480 640 1));
   AiTick (AiInputs 5 true (Generated "a desk") 6);
   AiTick (AiInputs (21 # 2) true (Generated "a desk") 11);
   CameraTick (Some (Frame 480 640 2));
   AiTick (AiInputs 20 true (Generated "a desk") 21);
   AiTick (AiInputs (43 # 2) true (Generated "a desk") 22)].

Lemma auto_describe_spacing_witness :
  auto_log two_descriptions (init true AudioReady true)
  = [((21 # 2)%Q, 10, 11%Q); ((43 # 2)%Q, 10, 22%Q)]
  /\ spaced 0 (auto_log two_descriptions (init true AudioReady true)).
Proof.
  split; [reflexivity|].
  exact (proj2 (proj2 auto_describe_spacing) two_descriptions
           (init true AudioReady true)).
Defined.

(* ================================================================== *)
(** * The speech fallback chain (C4) *)
(* ================================================================== *)

(** The ways the cloud tier fails before making a sound: the request
    raises, the status is not 200, or the answer carries no audio. *)
Definition cloud_silent (ans : cloud_answer) : bool :=
  match ans with
  | PostRaises => true
  | Responded status_code audio _ => negb ((status_code =? 200) && audio)
  end.

(** No playback raises once its sound has started. *)
Definition clean (env : speech_env) : bool :=
  match cloud env with
  | Responded _ _ PlayThenRaises => false
  | _ => true
  end
  && match gtts env with
     | Saved PlayThenRaises => false
     | _ => true
     end.

(** With the cloud tier silent (or switched off) and the key in place,
    [speak_text] is the gTTS path, up to the cloud tier's error log. *)
Lemma speak_text_falls_to_gtts (text : string) (env : speech_env)
    (a : assistant) (key : string) :
  google_tts_api_key a = Some key ->
  use_google_tts_api a = false \/ cloud_silent (cloud env) = true ->
  speak_text text env a = speak_with_gtts text env a
  \/ speak_text text env a
     = speak_with_gtts text env (emit (LogError "Google Cloud TTS error") a).
Proof.
  intros K [U | S]; unfold speak_text; rewrite ?U, ?K; auto.
  destruct (use_google_tts_api a); auto.
  destruct (negb (key =? "")%string); auto.
  unfold speak_with_google_cloud_tts.
  destruct (cloud env) as [|c audio pb]; auto.
  cbn in S. apply negb_true_iff in S. rewrite S. auto.
Qed.

(** As long as no playback raises after its sound has started, one call
    of [speak_text] makes at most one tier sound. *)
Lemma speak_text_clean_once (text : string) (env : speech_env) (a : assistant) :
  clean env = true ->
  exists l, audio_tiers (trace (speak_text text env a))
            = (audio_tiers (trace a) ++ l)%list
            /\ (List.length l <= 1)%nat.
Proof.
  unfold clean, speak_text, speak_with_google_cloud_tts, speak_with_gtts,
    speak_with_pyttsx3, play.
  intro C. apply andb_true_iff in C as [C1 C2].
  destruct (cloud env) as [|c audio [| |]], (gtts env) as [|[| |]];
    try discriminate; break_all; invert_eqs; cbn;
    first [ exists []; rewrite app_nil_r; split; [reflexivity | cbn; lia]
          | eexists [_]; split; [reflexivity | cbn; lia] ].
Qed.

(** With HD voice on and the key never assigned, reading the key
    raises and [speak_text]'s own handler goes straight to the local
    tier: gTTS is not tried. *)
Lemma speak_text_without_key (text : string) (env : speech_env) :
  speak_text text env (init true NoMicrophone true)
  = speak_with_pyttsx3 text (engine env)
      (emit (LogError "TTS error") (init true NoMicrophone true)).
Proof. reflexivity. Qed.

(** What the services do in the run below: the cloud endpoint answers
    503, gTTS delivers its audio and the sound plays, then removing the
    temporary file raises (it is still open inside the [with] block,
    which Windows refuses), and the local engine works. *)
Definition unlink_fails : speech_env :=
  SpeechEnv (Responded 503 false LoadRaises) (Saved PlayThenRaises) Said.

(** C4 fails on the code: with the cloud tier answering 503, a gTTS
    playback that raises after its sound has played is followed by the
    local tier speaking the same text again, so two tiers produce
    output for one [speak_text]. *)
Theorem speak_text_speaks_twice :
  cloud_silent (cloud unlink_fails) = true
  /\ audio_tiers (trace (speak_text "a desk" unlink_fails (init true AudioReady true)))
     = [GTTS; Pyttsx3]
  /\ trace (speak_text "a desk" unlink_fails (init true AudioReady true))
     = [AudioOut Pyttsx3 "a desk"; LogError "gTTS error"; AudioOut GTTS "a desk"].
Proof. repeat split; reflexivity. Qed.

(** With the cloud tier playing and then raising in the same way, all
    three tiers speak. *)
Lemma speak_text_speaks_thrice :
  audio_tiers
    (trace (speak_text "a desk"
              (SpeechEnv (Responded 200 true PlayThenRaises)
                 (Saved PlayThenRaises) Said)
              (init true AudioReady true)))
  = [CloudTTS; GTTS; Pyttsx3].
Proof. reflexivity. Qed.

(* ================================================================== *)
(** * Flags and resources over whole runs *)
(* ================================================================== *)

(** Properties that every [step] keeps hold after every [run]. *)
Lemma run_invariant (P : assistant -> Prop) :
  (forall e a, P a -> P (step e a)) ->
  forall es a, P a -> P (run es a).
Proof.
  intros S es. induction es as [|e r IH]; intros a H; cbn [run]; [exact H|].
  apply IH, S, H.
Qed.

(** What [setup_ai] and [setup_camera] left is never replaced. *)
Lemma step_resources (e : event) (a : assistant) :
  ai_model (step e a) = ai_model a /\ camera (step e a) = camera a.
Proof.
  destruct e; unfold_step; try (split; cbn; congruence).
  cbn [step]. unfold update_interval. break_all; split; reflexivity.
Qed.

Lemma step_listening_running (e : event) (a : assistant) :
  (is_listening a = true -> is_running a = true) ->
  is_listening (step e a) = true -> is_running (step e a) = true.
Proof.
  intro H. destruct e; unfold_step; unfold update_interval; break_all; cbn;
    intro L; try specialize (H L); try congruence;
    destruct (is_running a); cbn in *; congruence.
Qed.

(** X1: voice mode is only ever on while the assistant runs:
    [toggle_listening] refuses when stopped and [stop_assistant] clears
    the flag. *)
Theorem listening_only_while_running (es : list event) (ai_ok : bool)
    (audio : audio_setup) (camera_ok : bool) :
  is_listening (run es (init ai_ok audio camera_ok)) = true ->
  is_running (run es (init ai_ok audio camera_ok)) = true.
Proof.
  apply (run_invariant
           (fun a => is_listening a = true -> is_running a = true)).
  - apply step_listening_running.
  - cbn. discriminate.
Qed.

Lemma listening_only_while_running_witness :
  is_listening (run [Toggle; Space] (init true AudioReady true)) = true
  /\ is_running (run [Toggle; Space] (init true AudioReady true)) = true.
Proof.
  split; [reflexivity|].
  apply (listening_only_while_running [Toggle; Space] true AudioReady true).
  reflexivity.
Defined.

(** The state of an assistant that never got going. *)
Definition dormant (a : assistant) : Prop :=
  is_running a = false
  /\ is_listening a = false
  /\ current_frame a = None
  /\ Queue.items (image_queue a) = []
  /\ analysis_calls (trace a) = 0%nat
  /\ (ai_model a = false \/ camera a = false).

Lemma step_dormant (e : event) (a : assistant) : dormant a -> dormant (step e a).
Proof.
  unfold dormant. intros (R & L & F & Q & N & M).
  destruct e; cbn [step].
  - unfold camera_loop_iter. rewrite R. tauto.
  - unfold ai_processing_loop_iter. rewrite R. tauto.
  - unfold voice_interaction_loop_iter. rewrite R. tauto.
  - unfold toggle_assistant, start_assistant. rewrite R. cbn [negb].
    replace (negb (ai_model a) || negb (camera a)) with true
      by (destruct M as [-> | ->]; [reflexivity | now rewrite orb_true_r]).
    cbn. tauto.
  - unfold toggle_listening. rewrite R. cbn. tauto.
  - cbn. tauto.
  - unfold update_interval. break_all; cbn; tauto.
  - unfold update_speaking_speed. break_all; cbn; tauto.
  - unfold ask_question. rewrite R. cbn [negb].
    destruct (negb (nonempty (str_strip typed))); cbn; tauto.
Qed.

(** X2: when the AI model or the camera is missing at start-up, nothing
    the user or the loops do gets the pipeline going: it never runs, no
    frame is published or queued and no analysis call is made; each
    press of Start only shows the error box. *)
Theorem never_starts_without_resources (es : list event) (ai_ok : bool)
    (audio : audio_setup) (camera_ok : bool) :
  ai_ok = false \/ camera_ok = false ->
  is_running (run es (init ai_ok audio camera_ok)) = false
  /\ current_frame (run es (init ai_ok audio camera_ok)) = None
  /\ Queue.items (image_queue (run es (init ai_ok audio camera_ok))) = []
  /\ analysis_calls (trace (run es (init ai_ok audio camera_ok))) = 0%nat.
Proof.
  intro M.
  assert (D : dormant (run es (init ai_ok audio camera_ok))).
  { apply (run_invariant dormant step_dormant). unfold dormant. cbn. tauto. }
  unfold dormant in D. tauto.
Qed.

Lemma never_starts_without_resources_witness :
  is_running
    (run [Toggle; CameraTick (Some (Frame 480 640 1)); Space; Toggle]
       (init true AudioReady false)) = false.
Proof.
  apply (never_starts_without_resources
           [Toggle; CameraTick (Some (Frame 480 640 1)); Space; Toggle]
           true AudioReady false).
  right. reflexivity.
Defined.

(** The counter moves only inside [analyze_image_with_ai]. *)
Lemma analyze_counts (reply : ai_reply) (img : image) (q : option string)
    (a : assistant) :
  analysis_calls (trace (snd (analyze_image_with_ai reply img q a)))
  = S (analysis_calls (trace a))
  /\ api_call_count (snd (analyze_image_with_ai reply img q a))
     = api_call_count a
       + (if ai_model a then
            match reply with
            | Generated _ | Blocked _ => 1
            | EndpointError _ => 0
            end
          else 0).
Proof.
  unfold analyze_image_with_ai. cbn [ai_model emit set_trace].
  destruct (ai_model a), reply; cbn; split; try reflexivity; lia.
Qed.

Lemma step_api_count (e : event) (a : assistant) :
  0 <= api_call_count a <= Z.of_nat (analysis_calls (trace a)) ->
  0 <= api_call_count (step e a)
    <= Z.of_nat (analysis_calls (trace (step e a))).
Proof.
  intro H. destruct e; unfold_step; cbn in *;
    rewrite ?analysis_calls_app; try lia.
  cbn [step]. unfold update_interval. break_all; cbn; lia.
Qed.

(** X3: the "API calls" counter goes up by one for each response the
    endpoint returned (also one whose text then cannot be read) and
    stays put when the call itself fails or no model is configured; so
    after any run it is at most the number of analyses that were asked
    for. *)
Theorem api_call_count_bounded (es : list event) (ai_ok : bool)
    (audio : audio_setup) (camera_ok : bool) (reply : ai_reply) (img : image)
    (q : option string) (a : assistant) :
  0 <= api_call_count (run es (init ai_ok audio camera_ok))
    <= Z.of_nat (analysis_calls (trace (run es (init ai_ok audio camera_ok))))
  /\ api_call_count (snd (analyze_image_with_ai reply img q a))
     = api_call_count a
       + (if ai_model a then
            match reply with
            | Generated _ | Blocked _ => 1
            | EndpointError _ => 0
            end
          else 0).
Proof.
  split; [|apply analyze_counts].
  apply (run_invariant
           (fun a => 0 <= api_call_count a
                     <= Z.of_nat (analysis_calls (trace a)))).
  - apply step_api_count.
  - cbn. lia.
Qed.

(* ================================================================== *)
(** * Which frames get analysed *)
(* ================================================================== *)

Lemma firstn_firstn_app {A : Type} (n : nat) (l r : list A) :
  firstn n (firstn n l ++ r) = firstn n (l ++ r).
Proof.
  revert l. induction n as [|n IH]; intro l; [reflexivity|].
  destruct l as [|x l]; [reflexivity|]. cbn. now rewrite IH.
Qed.

Lemma last_cons_default {A : Type} (l : list A) (x d : A) :
  last (x :: l) d = last l x.
Proof.
  revert x d. induction l as [|y l IH]; intros x d; [reflexivity|].
  change (last (x :: y :: l) d) with (last (y :: l) d).
  now rewrite (IH y d), (IH y x).
Qed.

(** The state the capture loop works in: running, with a camera, on the
    queue [__init__] made. *)
Definition capturing (a : assistant) : Prop :=
  is_running a = true /\ camera a = true
  /\ Queue.maxsize (image_queue a) = 2
  /\ (List.length (Queue.items (image_queue a)) <= 2)%nat.

Lemma camera_tick_oldest (f : frame) (a : assistant) :
  capturing a ->
  capturing (step (CameraTick (Some f)) a)
  /\ Queue.items (image_queue (step (CameraTick (Some f)) a))
     = firstn 2 (Queue.items (image_queue a) ++ [f])
  /\ current_frame (step (CameraTick (Some f)) a) = Some f.
Proof.
  unfold capturing. intros (R & C & M & L).
  cbn [step]. unfold camera_loop_iter, capture_frame, Queue.put, Queue.full,
    Queue.qsize.
  rewrite R, C. cbn [image_queue emit set_trace set_current_frame].
  rewrite M. cbn [Z.ltb Z.compare andb].
  destruct (Queue.items (image_queue a)) as [|x [|y [|z r]]] eqn:I;
    cbn in L |- *; try lia; rewrite ?I, ?M; cbn; repeat split; auto.
Qed.

Lemma camera_ticks_oldest (fs : list frame) (a : assistant) :
  capturing a ->
  Queue.items (image_queue (run (map (fun f => CameraTick (Some f)) fs) a))
  = firstn 2 (Queue.items (image_queue a) ++ fs)
  /\ current_frame (run (map (fun f => CameraTick (Some f)) fs) a)
     = last (map Some fs) (current_frame a).
Proof.
  revert a. induction fs as [|f r IH]; intros a K; cbn [map run].
  - destruct K as (_ & _ & _ & L). rewrite app_nil_r.
    split; [|reflexivity]. symmetry. now apply firstn_all2.
  - destruct (camera_tick_oldest f a K) as (K' & Q & F).
    destruct (IH _ K') as [IQ IF]. rewrite IQ, IF, Q, F. split.
    + rewrite firstn_firstn_app, <- app_assoc. reflexivity.
    + symmetry. apply last_cons_default.
Qed.

(** X4: the queue keeps the oldest frames, not the newest: however many
    frames the camera delivers, the queue ends up with the first two of
    (what it held, then the new frames), while [current_frame] is the
    latest one. *)
Theorem queue_keeps_oldest_frames (fs : list frame) (a : assistant) :
  is_running a = true -> camera a = true ->
  Queue.maxsize (image_queue a) = 2 ->
  (List.length (Queue.items (image_queue a)) <= 2)%nat ->
  Queue.items (image_queue (run (map (fun f => CameraTick (Some f)) fs) a))
  = firstn 2 (Queue.items (image_queue a) ++ fs)
  /\ current_frame (run (map (fun f => CameraTick (Some f)) fs) a)
     = last (map Some fs) (current_frame a).
Proof. intros R C M L. apply camera_ticks_oldest. now repeat split. Qed.

Lemma queue_keeps_oldest_frames_witness :
  Queue.items
    (image_queue
       (run (map (fun f => CameraTick (Some f))
               [Frame 480 640 1; Frame 480 640 2; Frame 480 640 3;
                Frame 480 640 4])
          (start_assistant (init true AudioReady true))))
  = [Frame 480 640 1; Frame 480 640 2]
  /\ current_frame
       (run (map (fun f => CameraTick (Some f))
               [Frame 480 640 1; Frame 480 640 2; Frame 480 640 3;
                Frame 480 640 4])
          (start_assistant (init true AudioReady true)))
     = Some (Frame 480 640 4).
Proof.
  apply (queue_keeps_oldest_frames
           [Frame 480 640 1; Frame 480 640 2; Frame 480 640 3; Frame 480 640 4]
           (start_assistant (init true AudioReady true)));
    cbn; (reflexivity || lia).
Defined.

(** X5: when the auto-describe guard holds, the loop takes the oldest
    queued frame off the queue whether or not it can be encoded; if the
    encoding fails the frame is gone, nothing is analysed and the time
    stamp stays, so the next iteration tries the next frame; if it
    succeeds, the image analysed is that frame's, with no question. *)
Theorem auto_describe_takes_oldest (i : ai_inputs) (a : assistant) (f : frame)
    (r : list frame) :
  is_running a = true -> due (now i) a = true ->
  Queue.items (image_queue a) = f :: r ->
  Queue.items (image_queue (step (AiTick i) a)) = r
  /\ (encodes i = false ->
        analysis_calls (trace (step (AiTick i) a)) = analysis_calls (trace a)
        /\ last_description_time (step (AiTick i) a) = last_description_time a)
  /\ (encodes i = true ->
        last_analysis (trace (step (AiTick i) a))
        = Some (Image (fst (resized_shape (f_height f) (f_width f)))
                  (snd (resized_shape (f_height f) (f_width f)))
                  (f_pixels f), None)).
Proof.
  intros R D I. cbn [step].
  unfold ai_processing_loop_iter, Queue.get, Queue.empty, Queue.qsize,
    prepare_image_for_ai.
  rewrite R, D, I. cbn [List.length negb Z.of_nat Z.eqb Pos.of_succ_nat].
  destruct (encodes i).
  - destruct (resized_shape (f_height f) (f_width f)) as [h w].
    unfold analyze_image_with_ai. break_all; repeat split; try discriminate;
      reflexivity.
  - cbn. repeat split; try discriminate; reflexivity.
Qed.

(** A frame is queued, the interval has passed, the encoder raises. *)
Definition frame_waiting : assistant :=
  run [Toggle; CameraTick (Some (Frame 480 640 1));
       CameraTick (Some (Frame 480 640 2))] (init true AudioReady true).

Lemma auto_describe_takes_oldest_witness :
  Queue.items
    (image_queue
       (step (AiTick (AiInputs 11 false (Generated "a desk") 12)) frame_waiting))
  = [Frame 480 640 2]
  /\ last_description_time
       (step (AiTick (AiInputs 11 false (Generated "a desk") 12)) frame_waiting)
     = 0%Q.
Proof.
  destruct (auto_describe_takes_oldest
              (AiInputs 11 false (Generated "a desk") 12) frame_waiting
              (Frame 480 640 1) [Frame 480 640 2] eq_refl eq_refl eq_refl)
    as (Q & F & _).
  split; [exact Q|]. destruct (F eq_refl) as [_ T]. rewrite T. reflexivity.
Defined.

(** The events that are iterations of a loop. *)
Definition is_tick (e : event) : bool :=
  match e with
  | CameraTick _ | AiTick _ | VoiceTick _ => true
  | _ => false
  end.

Lemma ticks_when_stopped (es : list event) (a : assistant) :
  is_running a = false -> forallb is_tick es = true -> run es a = a.
Proof.
  intros R. induction es as [|e r IH]; cbn [forallb run]; [reflexivity|].
  intro T. apply andb_true_iff in T as [T1 T2].
  replace (step e a) with a; [now apply IH|].
  destruct e; try discriminate; cbn [step];
    unfold camera_loop_iter, ai_processing_loop_iter,
      voice_interaction_loop_iter; now rewrite R.
Qed.

(** X6: stopping is cooperative and complete: after [stop_assistant]
    both flags are down and no iteration of any of the three loops
    changes anything, whatever the camera, the clock or the microphone
    offer. *)
Theorem stopped_loops_are_inert (es : list event) (a : assistant) :
  forallb is_tick es = true ->
  is_running (stop_assistant a) = false
  /\ is_listening (stop_assistant a) = false
  /\ run es (stop_assistant a) = stop_assistant a.
Proof.
  intro T. repeat split. now apply ticks_when_stopped.
Qed.

Lemma stopped_loops_are_inert_witness :
  run [CameraTick (Some (Frame 480 640 3));
       AiTick (AiInputs 100 true (Generated "a desk") 101);
       VoiceTick (VoiceInputs (Recognised "hello") true (Generated "hi"))]
    (stop_assistant frame_waiting)
  = stop_assistant frame_waiting.
Proof.
  apply (stopped_loops_are_inert
           [CameraTick (Some (Frame 480 640 3));
            AiTick (AiInputs 100 true (Generated "a desk") 101);
            VoiceTick (VoiceInputs (Recognised "hello") true (Generated "hi"))]
           frame_waiting).
  reflexivity.
Defined.

(** X7: with Auto-describe unticked the auto-describe loop idles: no
    iteration dequeues a frame, calls the model or moves the time
    stamp. *)
Theorem auto_describe_off_idles (ticks : list ai_inputs) (a : assistant) :
  auto_describe a = false -> run (map AiTick ticks) a = a.
Proof.
  intro A. induction ticks as [|i r IH]; cbn [map run]; [reflexivity|].
  replace (step (AiTick i) a) with a; [exact IH|].
  cbn [step]. unfold ai_processing_loop_iter, due. rewrite A.
  now destruct (is_running a).
Qed.

Lemma auto_describe_off_idles_witness :
  run (map AiTick [AiInputs 11 true (Generated "a desk") 12;
                   AiInputs 50 true (Generated "a desk") 51])
    (toggle_auto_describe false frame_waiting)
  = toggle_auto_describe false frame_waiting.
Proof.
  apply (auto_describe_off_idles
           [AiInputs 11 true (Generated "a desk") 12;
            AiInputs 50 true (Generated "a desk") 51]
           (toggle_auto_describe false frame_waiting)).
  reflexivity.
Defined.

(* ================================================================== *)
(** * Spoken questions *)
(* ================================================================== *)

(** X8: a spoken question is answered from the live frame: with voice
    mode on and a text recognised, the loop calls the model exactly when
    the (lower-cased) text is not empty, a frame has been captured and
    it encodes; the image is [current_frame]'s and the question is the
    lower-cased text; the frame queue is left alone. *)
Theorem voice_question_uses_current_frame (i : voice_inputs) (a : assistant)
    (said : string) :
  is_running a = true -> is_listening a = true ->
  v_heard i = Recognised said ->
  analysis_calls (trace (voice_interaction_loop_iter i a))
  = (analysis_calls (trace a)
     + (if nonempty (Py.lower said) && has_frame a && v_encodes i
        then 1 else 0))%nat
  /\ (forall f,
        current_frame a = Some f -> nonempty (Py.lower said) = true ->
        v_encodes i = true ->
        last_analysis (trace (voice_interaction_loop_iter i a))
        = Some (Image (fst (resized_shape (f_height f) (f_width f)))
                  (snd (resized_shape (f_height f) (f_width f)))
                  (f_pixels f), Some (Py.lower said)))
  /\ image_queue (voice_interaction_loop_iter i a) = image_queue a.
Proof.
  intros R L H. unfold voice_interaction_loop_iter, has_frame.
  rewrite R, L, H. cbn [listen_for_speech].
  unfold prepare_image_for_ai, analyze_image_with_ai.
  cbn [current_frame update_status emit set_trace].
  destruct (nonempty (Py.lower said)); cbn [andb].
  - destruct (current_frame a) as [f|]; cbn [andb].
    + destruct (v_encodes i).
      * destruct (resized_shape (f_height f) (f_width f)) as [h w] eqn:S.
        break_all; cbn; (split; [lia|split; [|reflexivity]]);
          intros f' E _ _; injection E as <-; rewrite S; reflexivity.
      * cbn. split; [lia|split; [|reflexivity]]. intros; discriminate.
    + cbn. split; [lia|split; [|reflexivity]]. intros; discriminate.
  - cbn. split; [lia|split; [|reflexivity]]. intros; discriminate.
Qed.

Lemma voice_question_uses_current_frame_witness :
  last_analysis
    (trace (voice_interaction_loop_iter
              (VoiceInputs (Recognised "What Is This") true (Generated "a cup"))
              listening_state))
  = Some (Image 480 640 1, Some "what is this").
Proof.
  destruct (voice_question_uses_current_frame
              (VoiceInputs (Recognised "What Is This") true (Generated "a cup"))
              listening_state "What Is This" eq_refl eq_refl eq_refl)
    as (_ & A & _).
  rewrite (A (Frame 480 640 1) eq_refl eq_refl eq_refl). reflexivity.
Defined.

(** Something other than the three caught exceptions is raised. *)
Definition crashes (i : voice_inputs) : bool :=
  match v_heard i with Crashed _ _ => true | _ => false end.

(** The errors the voice loop's own handler has logged. *)
Fixpoint voice_errors (tr : list effect) : nat :=
  match tr with
  | [] => 0%nat
  | LogError m :: r =>
      if String.eqb m "Voice interaction error" then S (voice_errors r)
      else voice_errors r
  | _ :: r => voice_errors r
  end.

Lemma voice_iter_crash (i : voice_inputs) (a : assistant) :
  is_running a = true -> is_listening a = true -> crashes i = true ->
  is_running (voice_interaction_loop_iter i a) = true
  /\ is_listening (voice_interaction_loop_iter i a) = true
  /\ voice_errors (trace (voice_interaction_loop_iter i a))
     = S (voice_errors (trace a))
  /\ analysis_calls (trace (voice_interaction_loop_iter i a))
     = analysis_calls (trace a)
  /\ image_queue (voice_interaction_loop_iter i a) = image_queue a.
Proof.
  intros R L C. unfold crashes in C.
  destruct (v_heard i) as [| | | |at_stage exn] eqn:H; try discriminate.
  destruct (voice_iter_crash_keeps_listening i a at_stage exn R L H) as [-> _].
  destruct at_stage; cbn; auto.
Qed.

(** X9: an exception other than the three [listen_for_speech] catches
    does not end voice mode: each iteration logs one "Voice interaction
    error" (after whatever status the attempt had got to), leaves
    [is_listening] set and analyses nothing, so the loop tries again
    for as long as the exception recurs. *)
Theorem voice_loop_retries_on_crash (ticks : list voice_inputs) (a : assistant) :
  is_running a = true -> is_listening a = true ->
  forallb crashes ticks = true ->
  is_listening (run (map VoiceTick ticks) a) = true
  /\ voice_errors (trace (run (map VoiceTick ticks) a))
     = (List.length ticks + voice_errors (trace a))%nat
  /\ analysis_calls (trace (run (map VoiceTick ticks) a))
     = analysis_calls (trace a).
Proof.
  revert a. induction ticks as [|i r IH]; intros a R L C; cbn [map run].
  - repeat split. exact L.
  - cbn [forallb] in C. apply andb_true_iff in C as [C1 C2].
    cbn [step].
    destruct (voice_iter_crash i a R L C1) as (R' & L' & E & N & _).
    destruct (IH _ R' L' C2) as (IL & IE & IN).
    rewrite IL, IE, IN, E, N. cbn [List.length]. repeat split. lia.
Qed.

Lemma voice_loop_retries_on_crash_witness :
  is_listening
    (run (map VoiceTick
            [VoiceInputs (Crashed WhileListening "OSError") true (Generated "x");
             VoiceInputs (Crashed AtMicrophone "OSError") true (Generated "x")])
       listening_state) = true
  /\ trace
       (run (map VoiceTick
               [VoiceInputs (Crashed WhileListening "OSError") true
                  (Generated "x")])
          listening_state)
     = LogError "Voice interaction error"
         :: Status "Listening for speech..." :: trace listening_state.
Proof.
  split; [|reflexivity].
  apply (voice_loop_retries_on_crash
           [VoiceInputs (Crashed WhileListening "OSError") true (Generated "x");
            VoiceInputs (Crashed AtMicrophone "OSError") true (Generated "x")]
           listening_state); reflexivity.
Defined.

(* ================================================================== *)
(** * More on the speech chain *)
(* ================================================================== *)

(** Whether [l] can be got from [m] by dropping elements. *)
Fixpoint subsequence (l m : list tier) : bool :=
  match l, m with
  | [], _ => true
  | _ :: _, [] => false
  | x :: l', y :: m' =>
      match x, y with
      | CloudTTS, CloudTTS | GTTS, GTTS | Pyttsx3, Pyttsx3 => subsequence l' m'
      | _, _ => subsequence l m'
      end
  end.

(** X10: whatever the three services do, one [speak_text] makes the
    tiers sound in the order cloud, gTTS, local, each at most once; and
    it is never silently mute: when no tier made a sound the status bar
    says "Speech synthesis failed". *)
Theorem speak_text_order_and_report (text : string) (env : speech_env)
    (a : assistant) :
  exists l,
    audio_tiers (trace (speak_text text env a))
    = (audio_tiers (trace a) ++ l)%list
    /\ subsequence l [CloudTTS; GTTS; Pyttsx3] = true
    /\ (l = [] ->
        status_var (speak_text text env a)
        = Some (Msg "Speech synthesis failed")).
Proof.
  unfold speak_text, speak_with_google_cloud_tts, speak_with_gtts,
    speak_with_pyttsx3, play, status_var.
  destruct (cloud env) as [|c audio [| |]], (gtts env) as [|[| |]];
    break_all; invert_eqs; cbn;
    first [ exists []; rewrite app_nil_r;
            split; [reflexivity | split; [reflexivity | reflexivity]]
          | eexists [_]; split; [reflexivity | split; [reflexivity | discriminate]]
          | eexists [_; _]; rewrite <- ?app_assoc;
            split; [reflexivity | split; [reflexivity | discriminate]]
          | eexists [_; _; _]; rewrite <- ?app_assoc;
            split; [reflexivity | split; [reflexivity | discriminate]] ].
Qed.

Lemma speak_text_order_and_report_witness :
  audio_tiers
    (trace (speak_text "a desk"
              (SpeechEnv PostRaises SaveRaises SayRaises)
              (init true AudioReady true))) = []
  /\ status_var
       (speak_text "a desk" (SpeechEnv PostRaises SaveRaises SayRaises)
          (init true AudioReady true))
     = Some (Msg "Speech synthesis failed").
Proof.
  split; [reflexivity|].
  destruct (speak_text_order_and_report "a desk"
              (SpeechEnv PostRaises SaveRaises SayRaises)
              (init true AudioReady true)) as (l & E & _ & S).
  apply S. cbn in E. exact (eq_sym E).
Defined.

Definition set_use_google_tts_api (v : bool) (a : assistant) : assistant :=
  Assistant (is_running a) (is_listening a) (auto_describe a)
    (last_description_time a) (description_interval a) (speaking_speed a)
    v (google_tts_api_key a) (ai_model a) (camera a) (tts_engine a)
    (image_queue a) (current_frame a) (interval_var a) (speed_var a)
    (api_call_count a) (trace a).

(** [toggle_tts_quality()]: [checked] is [tts_quality_var.get()]. *)
Definition toggle_tts_quality (checked : bool) (a : assistant) : assistant :=
  let a := set_use_google_tts_api checked a in
  update_status
    (if use_google_tts_api a then "Voice quality: HD (Google Cloud)"
     else "Voice quality: Standard (gTTS)") a.

(** X11: which services [speak_text] turns to.  With "HD Voice"
    unticked the cloud endpoint plays no part: the outcome is the same
    whatever it would have answered, and the cloud tier never sounds.
    With HD on but the key never assigned ([setup_audio] failed before
    reaching it) neither the cloud nor gTTS plays a part: only the local
    engine is tried. *)
Theorem speak_text_services (text : string) (c c' : cloud_answer)
    (g g' : gtts_answer) (e : engine_answer) (a : assistant) :
  speak_text text (SpeechEnv c g e) (toggle_tts_quality false a)
  = speak_text text (SpeechEnv c' g e) (toggle_tts_quality false a)
  /\ (use_google_tts_api a = true -> google_tts_api_key a = None ->
      speak_text text (SpeechEnv c g e) a = speak_text text (SpeechEnv c' g' e) a
      /\ exists l,
           audio_tiers (trace (speak_text text (SpeechEnv c g e) a))
           = (audio_tiers (trace a) ++ l)%list
           /\ subsequence l [Pyttsx3] = true).
Proof.
  split.
  - reflexivity.
  - intros U K. unfold speak_text. rewrite U, K. split; [reflexivity|].
    unfold speak_with_pyttsx3. cbn [engine tts_engine emit set_trace].
    destruct (tts_engine a), e; cbn;
      first [ exists []; rewrite app_nil_r; split; reflexivity
            | exists [Pyttsx3]; split; reflexivity ].
Qed.

Lemma speak_text_services_witness :
  audio_tiers
    (trace (speak_text "a desk"
              (SpeechEnv (Responded 200 true PlayCompletes)
                 (Saved PlayCompletes) Said)
              (init true NoMicrophone true)))
  = [Pyttsx3].
Proof.
  destruct (proj2 (speak_text_services "a desk"
                     (Responded 200 true PlayCompletes) PostRaises
                     (Saved PlayCompletes) SaveRaises Said
                     (init true NoMicrophone true)) eq_refl eq_refl)
    as [E _].
  rewrite E. reflexivity.
Defined.

(* ================================================================== *)
(** * More on the setters *)
(* ================================================================== *)

(** X12: without a local engine ([setup_audio] failed before creating
    it) an accepted speed is stored all the same, and then the setter
    raises [AttributeError]: no status is shown and the spin box keeps
    the typed text. *)
Theorem update_speaking_speed_without_engine (typed : string) (a : assistant)
    (s : float) :
  tts_engine a = None ->
  Py.float_of_str typed = Some s ->
  PrimFloat.leb 0.5 s = true -> PrimFloat.leb s 2 = true ->
  update_speaking_speed (set_speed_var (Typed typed) a)
  = (Raise "AttributeError",
     set_speaking_speed s (set_speed_var (Typed typed) a)).
Proof.
  intros T E L U. unfold update_speaking_speed.
  cbn [speed_var set_speed_var float_of_var]. rewrite E, L, U.
  cbn [andb tts_engine set_speaking_speed set_speed_var]. now rewrite T.
Qed.

Lemma update_speaking_speed_without_engine_witness :
  speaking_speed
    (snd (update_speaking_speed
            (set_speed_var (Typed "1.5") (init true NoEngine true))))
  = 1.5%float
  /\ trace (snd (update_speaking_speed
                   (set_speed_var (Typed "1.5") (init true NoEngine true))))
     = [].
Proof.
  rewrite (update_speaking_speed_without_engine "1.5"
             (init true NoEngine true) 1.5%float);
    try reflexivity.
  split; reflexivity.
Defined.






Lemma step_speed_fields (e : event) (a : assistant) :
  (forall typed, e <> Speed typed) ->
  speaking_speed (step e a) = speaking_speed a
  /\ tts_engine (step e a) = tts_engine a.
Proof.
  intro H. destruct e; try (exfalso; eapply H; reflexivity);
    unfold_step; unfold update_interval; break_all; split; reflexivity.
Qed.

(** The stored speed is within its range, and the local engine, when
    there is one, runs at the rate [setup_audio] gave it as long as the
    speed has not been touched, and at [int(150 * speed)] afterwards. *)
Definition speed_ok (a : assistant) : Prop :=
  PrimFloat.leb 0.5 (speaking_speed a) && PrimFloat.leb (speaking_speed a) 2
  = true
  /\ (tts_engine a = None
      \/ (tts_engine a = Some 200 /\ speaking_speed a = default_speed)
      \/ tts_engine a
         = Some (Py.int_of_float (PrimFloat.mul 150 (speaking_speed a)))).

Lemma step_speed_ok (e : event) (a : assistant) : speed_ok a -> speed_ok (step e a).
Proof.
  unfold speed_ok. intros [R E].
  destruct e;
    try (match goal with
         | |- context [step ?e a] =>
             destruct (step_speed_fields e a) as [-> ->];
             [intros ? ?; discriminate | now split]
         end).
  cbn [step snd]. unfold update_speaking_speed.
  cbn [speed_var set_speed_var float_of_var].
  destruct (Py.float_of_str typed) as [s|]; [|cbn; now split].
  destruct (PrimFloat.leb 0.5 s && PrimFloat.leb s 2) eqn:B; [|cbn; now split].
  cbn [tts_engine set_speaking_speed set_speed_var].
  destruct (tts_engine a) eqn:T; cbn; (split; [exact B|]); auto.
Qed.

(** X14: after any run the stored speaking speed lies within 0.5..2.0,
    and the local engine's rate is either the 200 words per minute of
    [setup_audio] with the speed still at its default 1.2 (for which
    the setter would give 180), or [int(150 * speed)] of the stored
    speed. *)
Theorem speed_and_rate_agree (es : list event) (ai_ok : bool)
    (audio : audio_setup) (camera_ok : bool) :
  PrimFloat.leb 0.5 (speaking_speed (run es (init ai_ok audio camera_ok)))
  && PrimFloat.leb (speaking_speed (run es (init ai_ok audio camera_ok))) 2
  = true
  /\ (tts_engine (run es (init ai_ok audio camera_ok)) = None
      \/ (tts_engine (run es (init ai_ok audio camera_ok)) = Some 200
          /\ speaking_speed (run es (init ai_ok audio camera_ok))
             = default_speed)
      \/ tts_engine (run es (init ai_ok audio camera_ok))
         = Some (Py.int_of_float
                   (PrimFloat.mul 150
                      (speaking_speed (run es (init ai_ok audio camera_ok))))))
  /\ Py.int_of_float (PrimFloat.mul 150 default_speed) = 180.
Proof.
  split; [|split; [|reflexivity]];
    apply (run_invariant speed_ok step_speed_ok es (init ai_ok audio camera_ok));
    (split; [reflexivity|]); destruct audio; cbn; auto.
Qed.

(* ================================================================== *)
(** * The size of what is sent to the model *)
(* ================================================================== *)

Lemma resized_width_any_height (height width : Z) :
  snd (resized_shape height width) = snd (resized_shape 1 width).
Proof. unfold resized_shape. now destruct (800 <? width). Qed.

Lemma in_widths (lo : Z) (n : nat) (w : Z) :
  lo <= w < lo + Z.of_nat n -> In w (widths lo n).
Proof.
  intro R. unfold widths. apply in_map_iff.
  exists (Z.to_nat (w - lo)). split; [lia|]. apply in_seq. lia.
Qed.

(** X15: the image handed to the model is never wider than 800 pixels,
    for every frame up to 8192 pixels wide and whatever its height; a
    frame no wider than 800 goes out at its own size. *)
Theorem prepared_image_width_bounded (f : frame) (a : assistant) :
  f_width f <= 8192 ->
  exists img,
    fst (prepare_image_for_ai true f a) = Some img
    /\ i_width img <= 800
    /\ (800 < f_width f -> i_width img = 800 \/ i_width img = 799)
    /\ (f_width f <= 800 ->
        i_width img = f_width f /\ i_height img = f_height f).
Proof.
  intro B. unfold prepare_image_for_ai.
  destruct (resized_shape (f_height f) (f_width f)) as [h w] eqn:S.
  exists (Image h w (f_pixels f)). cbn [fst i_width i_height].
  assert (W : w = snd (resized_shape 1 (f_width f)))
    by (rewrite <- (resized_width_any_height (f_height f)), S; reflexivity).
  destruct (Z_le_gt_dec (f_width f) 800) as [N | G].
  - rewrite resized_shape_narrow in S by exact N. injection S as <- <-.
    repeat split; try lia.
  - pose proof resized_width_800_or_799 as K.
    rewrite forallb_forall in K.
    specialize (K (f_width f)
                  (in_widths 801 (Z.to_nat 7392) (f_width f)
                     ltac:(rewrite Z2Nat.id; lia))).
    cbn zeta in K. rewrite <- W in K.
    apply orb_true_iff in K as [K | K]; apply Z.eqb_eq in K;
      repeat split; try lia.
Qed.

Lemma prepared_image_width_bounded_witness :
  exists img,
    fst (prepare_image_for_ai true (Frame 1080 1920 7) (init true AudioReady true))
    = Some img
    /\ i_width img <= 800.
Proof.
  destruct (prepared_image_width_bounded (Frame 1080 1920 7)
              (init true AudioReady true)) as (img & E & W & _).
  - cbn. lia.
  - exists img. split; [exact E | exact W].
Defined.

(* ================================================================== *)
(** * The cloud voice *)
(* ================================================================== *)

(** [d.get(key, default)] on a dict written as its items. *)
Fixpoint dict_get (key default : string) (d : list (string * string)) : string :=
  match d with
  | [] => default
  | (k, v) :: r => if String.eqb key k then v else dict_get key default r
  end.

(** The voice [speak_with_google_cloud_tts] asks for: the request's
    [languageCode] and the voice's [name]. *)
Definition cloud_voice (voice_language voice_accent : string) : string * string :=
  let '(voice_names, language_code) :=
    if String.eqb voice_language "hi" then
      ([("us", "hi-IN-Neural2-A"); ("uk", "hi-IN-Neural2-B");
        ("au", "hi-IN-Neural2-C"); ("in", "hi-IN-Neural2-D")], "hi-IN")
    else
      ([("us", "en-US-Neural2-F"); ("uk", "en-GB-Neural2-F");
        ("au", "en-AU-Neural2-F"); ("in", "en-IN-Neural2-F")], "en-US") in
  let voice_name :=
    dict_get voice_accent (dict_get "us" "" voice_names) voice_names in
  (language_code, voice_name).

(** X16: the voice requested from the cloud endpoint is named after the
    locale of the request's [languageCode] for Hindi with any accent,
    and for English with the US accent or an unknown one (which falls
    back to the US voice); with the accents uk, au and in the English
    request names a British, Australian or Indian voice under the
    language code en-US. *)
Theorem cloud_voice_locale (voice_language voice_accent : string) :
  substring 0 5 (snd (cloud_voice voice_language voice_accent))
  = fst (cloud_voice voice_language voice_accent)
  <-> voice_language = "hi"
      \/ (voice_accent <> "uk" /\ voice_accent <> "au" /\ voice_accent <> "in").
Proof.
  unfold cloud_voice.
  destruct (String.eqb_spec voice_language "hi") as [L | L];
    cbn [dict_get fst snd];
    destruct (String.eqb_spec voice_accent "us") as [-> | U];
    try (cbn; split; [intros _ | reflexivity]; auto;
         right; repeat split; discriminate);
    destruct (String.eqb_spec voice_accent "uk") as [-> | K];
    try (cbn; split; [auto; discriminate | intros [? | (? & ? & ?)]; congruence]);
    destruct (String.eqb_spec voice_accent "au") as [-> | A];
    try (cbn; split; [auto; discriminate | intros [? | (? & ? & ?)]; congruence]);
    destruct (String.eqb_spec voice_accent "in") as [-> | I];
    try (cbn; split; [auto; discriminate | intros [? | (? & ? & ?)]; congruence]);
    cbn; split; auto.
Qed.

(* ================================================================== *)
(** * Typed questions *)
(* ================================================================== *)

(** Whether [ask_question] goes ahead. *)
Definition asks (question_var : string) (a : assistant) : bool :=
  nonempty (str_strip question_var) && is_running a && has_frame a.

(** X17: [ask_question] hands a question to its thread exactly when the
    stripped text is not empty, the assistant runs and a frame has been
    captured; then the entry is cleared and the question passed on is
    the stripped text; otherwise the entry keeps its text.  Either way
    it makes no analysis call itself and leaves the flags, the queue
    and the time stamp of the auto-describe loop alone. *)
Theorem ask_question_guards (question_var : string) (a : assistant) :
  snd (fst (ask_question question_var a))
  = (if asks question_var a then Some (str_strip question_var) else None)
  /\ fst (fst (ask_question question_var a))
     = (if asks question_var a then "" else question_var)
  /\ (str_strip question_var = "" -> snd (ask_question question_var a) = a)
  /\ analysis_calls (trace (snd (ask_question question_var a)))
     = analysis_calls (trace a)
  /\ image_queue (snd (ask_question question_var a)) = image_queue a
  /\ last_description_time (snd (ask_question question_var a))
     = last_description_time a
  /\ is_running (snd (ask_question question_var a)) = is_running a
  /\ is_listening (snd (ask_question question_var a)) = is_listening a.
Proof.
  unfold ask_question, asks, has_frame, nonempty.
  destruct (str_strip question_var =? "")%string eqn:E; cbn [negb andb].
  - repeat split; reflexivity.
  - destruct (is_running a) eqn:R; cbn [negb andb];
      [destruct (current_frame a)|];
      repeat split; try reflexivity; try exact R;
      intro Q; rewrite Q in E; discriminate.
Qed.

(** X18: the thread behind a typed question calls the model exactly
    when a frame is there and encodes, with [current_frame]'s image and
    the question as typed (stripped, not lower-cased); it takes nothing
    from the frame queue and does not move the auto-describe time
    stamp; and it always ends on the status "Question processed", also
    when the image could not be prepared or no tier could speak. *)
Theorem process_question_effects (question : string) (encodes : bool)
    (reply : ai_reply) (env : speech_env) (a : assistant) :
  analysis_calls (trace (process_question question encodes reply env a))
  = (analysis_calls (trace a) + (if has_frame a && encodes then 1 else 0))%nat
  /\ (forall f, current_frame a = Some f -> encodes = true ->
      last_analysis (trace (process_question question encodes reply env a))
      = Some (Image (fst (resized_shape (f_height f) (f_width f)))
                (snd (resized_shape (f_height f) (f_width f)))
                (f_pixels f), Some question))
  /\ image_queue (process_question question encodes reply env a)
     = image_queue a
  /\ last_description_time (process_question question encodes reply env a)
     = last_description_time a
  /\ status_var (process_question question encodes reply env a)
     = Some (Msg "Question processed").
Proof.
  destruct (process_question_frame question encodes reply env a)
    as (n & tr & E & C & _ & _ & L).
  rewrite E. unfold status_var.
  cbn [trace image_queue last_description_time set_api_call_count set_trace
       analysis_calls last_analysis last_status].
  repeat split.
  - rewrite analysis_calls_app, C. lia.
  - intros f F N. apply last_analysis_app. exact (L f F N).
Qed.

(* ================================================================== *)
(** * How often the auto-describe loop can call the model *)
(* ================================================================== *)

(** The clock does not run backwards inside an iteration. *)
Definition clock_forward (e : event) : Prop :=
  match e with
  | AiTick i => (now i <= done i)%Q
  | _ => True
  end.

(** An entry of the log made under an interval of at least 5 seconds,
    on a clock that went forward. *)
Definition entry_ok (x : Q * Z * Q) : Prop :=
  5 <= snd (fst x) /\ (fst (fst x) <= snd x)%Q.

Lemma auto_log_entries (es : list event) (a : assistant) :
  5 <= description_interval a <= 60 ->
  Forall clock_forward es ->
  Forall entry_ok (auto_log es a).
Proof.
  revert a. induction es as [|e r IH]; intros a R C; cbn [auto_log];
    [constructor|].
  inversion C as [|? ? Ce Cr]; subst.
  apply Forall_app. split.
  - destruct e; try constructor.
    destruct (issues (AiTick i) a); constructor; [|constructor].
    split; cbn; [lia | exact Ce].
  - apply IH; [apply step_interval_range, R | exact Cr].
Qed.

Lemma spaced_nth (log : list (Q * Z * Q)) :
  forall (last : Q) (k : nat) (x : Q * Z * Q),
    spaced last log -> Forall entry_ok log ->
    nth_error log k = Some x ->
    (last + 5 * inject_Z (Z.of_nat (S k)) < fst (fst x))%Q.
Proof.
  induction log as [|[[t iv] d] r IH]; intros last k x S F N.
  - destruct k; discriminate.
  - cbn [spaced] in S. destruct S as [S1 S2].
    inversion F as [|? ? [F1 F2] Fr]; subst. cbn [fst snd] in F1, F2.
    assert (I5 : (5 <= inject_Z iv)%Q)
      by (change 5%Q with (inject_Z 5); rewrite <- Zle_Qle; exact F1).
    destruct k as [|k]; cbn [nth_error] in N.
    + injection N as <-. cbn [fst]. change (inject_Z (Z.of_nat 1)) with 1%Q.
      lra.
    + specialize (IH d k x S2 Fr N).
      rewrite (Nat2Z.inj_succ (S k)), <- Z.add_1_r, inject_Z_plus.
      change (inject_Z 1) with 1%Q. lra.
Qed.

(** X19: the auto-describe loop is rate limited, whatever the user does
    to the controls: on a clock that does not run backwards inside an
    iteration, the k-th automatic analysis of any run (counting from 1)
    starts later than 5k seconds on the clock, the interval never being
    under 5 seconds and the time stamp starting at 0. *)
Theorem auto_describe_rate_limit (es : list event) (ai_ok : bool)
    (audio : audio_setup) (camera_ok : bool) (k : nat) (x : Q * Z * Q) :
  Forall clock_forward es ->
  nth_error (auto_log es (init ai_ok audio camera_ok)) k = Some x ->
  (5 * inject_Z (Z.of_nat (S k)) < fst (fst x))%Q.
Proof.
  intros C N.
  pose proof (spaced_nth (auto_log es (init ai_ok audio camera_ok)) 0 k x
                (auto_log_spaced es (init ai_ok audio camera_ok))
                (auto_log_entries es (init ai_ok audio camera_ok)
                   ltac:(cbn; lia) C) N) as H.
  cbn [init last_description_time] in H. lra.
Qed.

Lemma auto_describe_rate_limit_witness :
  (5 * inject_Z (Z.of_nat 2) < 43 # 2)%Q.
Proof.
  apply (auto_describe_rate_limit two_descriptions true AudioReady true 1
           ((43 # 2)%Q, 10, 22%Q)).
  - unfold two_descriptions. repeat constructor; cbn; discriminate.
  - reflexivity.
Defined.

(* ================================================================== *)
(** * What the model is asked *)
(* ================================================================== *)








